(** * IssueHub frontend: the authenticated HTTP client and its callers

    A shallow embedding of the axios client of [frontend/src/api/axios.js]
    (request and response interceptors), of the resource wrappers of
    [frontend/src/api/{auth,projects,issues,comments}.js], of the provider
    of [frontend/src/context/AuthContext.jsx] (bootstrap, login, signup,
    logout), of the [catch] blocks of the page components, and of the
    handlers of the login, signup, issue list and project detail pages.

    JavaScript promises are modelled by a state-and-error monad over the
    browser state (localStorage, current location) with a log of the
    observable effects; the server is a variable of the development. *)

From Stdlib Require Import ZArith List.
From stdpp Require Import base strings gmap pretty.

Local Open Scope string_scope.
Local Open Scope list_scope.
Set Warnings "-register-all".

(** ** JavaScript values *)

(** Parsed JSON bodies and the few other values the code handles.  Numbers
    are restricted to integers, which is all the code compares against. *)
Inductive JsValue : Type :=
| JsUndefined
| JsNull
| JsBool (b : bool)
| JsNumber (n : Z)
| JsString (s : string)
| JsArray (items : list JsValue)
| JsObject (fields : list (string * JsValue)).

(** [ToBoolean]: the test performed by [if (v)] and by [v || w]. *)
Definition js_truthy (v : JsValue) : bool :=
  match v with
  | JsUndefined | JsNull => false
  | JsBool b => b
  | JsNumber n => negb (n =? 0)%Z
  | JsString s => negb (String.eqb s "")
  | JsArray _ | JsObject _ => true
  end.

(** [a || b] *)
Definition js_or (a b : JsValue) : JsValue :=
  if js_truthy a then a else b.

(** Own-property lookup in an object literal. *)
Fixpoint assoc_get (k : string) (fields : list (string * JsValue)) : JsValue :=
  match fields with
  | [] => JsUndefined
  | (k', v) :: rest => if String.eqb k k' then v else assoc_get k rest
  end.

(** [v?.k]: [undefined] on [null] and [undefined], the property otherwise.
    The keys read by the code ([detail]) are not properties of strings,
    numbers, booleans or arrays. *)
Definition js_opt_get (v : JsValue) (k : string) : JsValue :=
  match v with
  | JsObject fields => assoc_get k fields
  | _ => JsUndefined
  end.

(** A parameter with a default value, [(x = d) => ...]. *)
Definition default_arg (x d : JsValue) : JsValue :=
  match x with
  | JsUndefined => d
  | _ => x
  end.

(** [v === n] for a number literal [n]. *)
Definition js_strict_eq_number (v : JsValue) (n : Z) : bool :=
  match v with
  | JsNumber m => (m =? n)%Z
  | _ => false
  end.

(** ** Requests, responses and errors *)

Inductive Method : Type := GET | POST | PATCH | DELETE.

Record RequestConfig : Type := mkConfig {
  cfg_baseURL : string;
  cfg_method : Method;
  cfg_url : string;
  cfg_data : JsValue;
  cfg_params : JsValue;
  cfg_headers : gmap string string
}.

Record AxiosResponse : Type := mkResponse {
  resp_status : Z;
  resp_data : JsValue;
  resp_config : RequestConfig
}.

(** What a rejected promise carries.  [err_response] is [None] when no
    response reached the client ([error.response] is [undefined]). *)
Record AxiosError : Type := mkError {
  err_message : string;
  err_config : RequestConfig;
  err_response : option AxiosResponse
}.

(** [error.response?.status] *)
Definition error_status (error : AxiosError) : JsValue :=
  match err_response error with
  | None => JsUndefined
  | Some r => JsNumber (resp_status r)
  end.

(** [err.response?.data?.detail] *)
Definition error_detail (err : AxiosError) : JsValue :=
  match err_response err with
  | None => JsUndefined
  | Some r => js_opt_get (resp_data r) "detail"
  end.

(** ** The browser and the promise monad *)

(** Observable effects, in program order. *)
Inductive Effect : Type :=
| EvRemoveItem (key : string)
| EvAssignHref (url : string)
| EvSend (config : RequestConfig).

Record World : Type := mkWorld {
  localStorage : gmap string string;
  pathname : string;
  trace : list Effect
}.

Inductive Settled (A : Type) : Type :=
| Fulfilled (a : A)
| Rejected (e : AxiosError).
Arguments Fulfilled {A} a.
Arguments Rejected {A} e.

Definition Promise (A : Type) : Type := World -> Settled A * World.

Definition resolve {A} (a : A) : Promise A := fun w => (Fulfilled a, w).
Definition reject {A} (e : AxiosError) : Promise A := fun w => (Rejected e, w).

(** [p.then(onFulfilled, onRejected)] *)
Definition then_ {A B} (p : Promise A)
    (onFulfilled : A -> Promise B) (onRejected : AxiosError -> Promise B)
  : Promise B :=
  fun w =>
    match p w with
    | (Fulfilled a, w') => onFulfilled a w'
    | (Rejected e, w') => onRejected e w'
    end.

(** [const x = await p; k x] inside an [async] function. *)
Definition await {A B} (p : Promise A) (k : A -> Promise B) : Promise B :=
  then_ p k reject.

(** [try { body } catch (err) { handler err }] *)
Definition try_catch {A} (body : Promise A) (handler : AxiosError -> Promise A)
  : Promise A :=
  then_ body resolve handler.

Notation "x <- p ;; k" := (await p (fun x => k))
  (at level 100, p at next level, right associativity).
Notation "p ;;; k" := (await p (fun _ => k))
  (at level 100, right associativity).

Definition log (ev : Effect) (w : World) : World :=
  mkWorld (localStorage w) (pathname w) (trace w ++ [ev]).

(** [localStorage.getItem(key)]: the stored string, or [null]. *)
Definition getItem (key : string) : Promise (option string) :=
  fun w => (Fulfilled (localStorage w !! key), w).

(** [localStorage.removeItem(key)] *)
Definition removeItem (key : string) : Promise unit :=
  fun w =>
    (Fulfilled tt,
     mkWorld (delete key (localStorage w)) (pathname w)
             (trace w ++ [EvRemoveItem key])).

(** [window.location.pathname] *)
Definition location_pathname : Promise string :=
  fun w => (Fulfilled (pathname w), w).

(** [window.location.href = url]: the navigation is requested; it takes
    effect once the running task has finished. *)
Definition assign_href (url : string) : Promise unit :=
  fun w => (Fulfilled tt, log (EvAssignHref url) w).

(** [if (token)] on the result of [getItem]: [null] and the empty string
    are falsy. *)
Definition token_truthy (token : option string) : bool :=
  match token with
  | None => false
  | Some t => negb (String.eqb t "")
  end.

(** [`${token}`]: a template literal prints [null] as the text null. *)
Definition template_of (token : option string) : string :=
  match token with
  | None => "null"
  | Some t => t
  end.

(** ** [api/axios.js] *)

(** [config.headers.Authorization = value] *)
Definition set_header (name value : string) (config : RequestConfig)
  : RequestConfig :=
  mkConfig (cfg_baseURL config) (cfg_method config) (cfg_url config)
           (cfg_data config) (cfg_params config)
           (<[name := value]> (cfg_headers config)).

(** Request interceptor, fulfilled handler. *)
Definition request_onFulfilled (config : RequestConfig) : Promise RequestConfig :=
  token <- getItem "token" ;;
  if token_truthy token
  then resolve (set_header "Authorization" ("Bearer " +:+ template_of token) config)
  else resolve config.

(** The request as it leaves the request interceptor. *)
Definition outgoing (config : RequestConfig) (w : World) : RequestConfig :=
  match fst (request_onFulfilled config w) with
  | Fulfilled sent => sent
  | Rejected _ => config
  end.

(** Request interceptor, rejected handler. *)
Definition request_onRejected (error : AxiosError) : Promise RequestConfig :=
  reject error.

(** Response interceptor, fulfilled handler. *)
Definition response_onFulfilled (response : AxiosResponse) : Promise AxiosResponse :=
  resolve response.

(** Response interceptor, rejected handler. *)
Definition response_onRejected (error : AxiosError) : Promise AxiosResponse :=
  (if js_strict_eq_number (error_status error) 401
   then
     removeItem "token" ;;;
     removeItem "user" ;;;
     path <- location_pathname ;;
     if negb (String.eqb path "/login")
     then assign_href "/login"
     else resolve tt
   else resolve tt) ;;;
  reject error.

(** [axios.create({ baseURL, headers })] *)
Definition api_defaults (method : Method) (url : string) (data params : JsValue)
  : RequestConfig :=
  mkConfig "http://localhost:8000/api" method url data params
           {[ "Content-Type" := "application/json" ]}.

(** [validateStatus] of axios: a response settles the request as fulfilled
    exactly when its status is 2xx. *)
Definition validateStatus (status : Z) : bool :=
  ((200 <=? status) && (status <? 300))%Z.

Section Client.

(** The network and the backend: the status and the parsed body answered
    to a transmitted request, or [None] when no response reaches the
    client. *)
Variable server : RequestConfig -> option (Z * JsValue).

(** The transport step of axios: the request goes out as it is after the
    request interceptors, and the answer settles the promise. *)
Definition dispatchRequest (config : RequestConfig) : Promise AxiosResponse :=
  fun w =>
    let w' := log (EvSend config) w in
    match server config with
    | None => (Rejected (mkError "Network Error" config None), w')
    | Some (status, body) =>
        let response := mkResponse status body config in
        if validateStatus status
        then (Fulfilled response, w')
        else (Rejected (mkError "Request failed" config (Some response)), w')
    end.

(** The interceptor chain of the instance:
    [Promise.resolve(config).then(reqOk, reqErr).then(dispatch)
       .then(respOk, respErr)]. *)
Definition api_request (config : RequestConfig) : Promise AxiosResponse :=
  then_ (then_ (then_ (resolve config) request_onFulfilled request_onRejected)
               dispatchRequest reject)
        response_onFulfilled response_onRejected.

(** [api.get(url)] and [api.get(url, { params })] *)
Definition api_get (url : string) (params : JsValue) : Promise AxiosResponse :=
  api_request (api_defaults GET url JsUndefined params).

(** [api.post(url, data)] *)
Definition api_post (url : string) (data : JsValue) : Promise AxiosResponse :=
  api_request (api_defaults POST url data JsUndefined).

(** [api.patch(url, data)] *)
Definition api_patch (url : string) (data : JsValue) : Promise AxiosResponse :=
  api_request (api_defaults PATCH url data JsUndefined).

(** [api.delete(url)] *)
Definition api_delete (url : string) : Promise AxiosResponse :=
  api_request (api_defaults DELETE url JsUndefined JsUndefined).

(** *** [api/auth.js] *)

Definition signup (data : JsValue) : Promise JsValue :=
  response <- api_post "/auth/signup" data ;;
  resolve (resp_data response).

Definition login (credentials : JsValue) : Promise JsValue :=
  response <- api_post "/auth/login" credentials ;;
  resolve (resp_data response).

Definition getCurrentUser : Promise JsValue :=
  response <- api_get "/auth/me" JsUndefined ;;
  resolve (resp_data response).

(** *** [api/projects.js]

    Identifiers are route parameters, already text when they are spliced
    into the path. *)

Definition getProjects : Promise JsValue :=
  response <- api_get "/projects" JsUndefined ;;
  resolve (resp_data response).

Definition createProject (data : JsValue) : Promise JsValue :=
  response <- api_post "/projects" data ;;
  resolve (resp_data response).

Definition getProject (projectId : string) : Promise JsValue :=
  response <- api_get ("/projects/" +:+ projectId) JsUndefined ;;
  resolve (resp_data response).

Definition addMember (projectId : string) (data : JsValue) : Promise JsValue :=
  response <- api_post ("/projects/" +:+ projectId +:+ "/members") data ;;
  resolve (resp_data response).

(** *** [api/issues.js] *)

(** [params = {}]: an omitted argument becomes the empty object. *)
Definition getIssues (projectId : string) (params : JsValue) : Promise JsValue :=
  let params := default_arg params (JsObject []) in
  response <- api_get ("/projects/" +:+ projectId +:+ "/issues") params ;;
  resolve (resp_data response).

Definition createIssue (projectId : string) (data : JsValue) : Promise JsValue :=
  response <- api_post ("/projects/" +:+ projectId +:+ "/issues") data ;;
  resolve (resp_data response).

Definition getIssue (issueId : string) : Promise JsValue :=
  response <- api_get ("/issues/" +:+ issueId) JsUndefined ;;
  resolve (resp_data response).

Definition updateIssue (issueId : string) (data : JsValue) : Promise JsValue :=
  response <- api_patch ("/issues/" +:+ issueId) data ;;
  resolve (resp_data response).

(** The body has no [return]: the promise resolves with [undefined]. *)
Definition deleteIssue (issueId : string) : Promise JsValue :=
  api_delete ("/issues/" +:+ issueId) ;;;
  resolve JsUndefined.

(** *** [api/comments.js] *)

Definition getComments (issueId : string) : Promise JsValue :=
  response <- api_get ("/issues/" +:+ issueId +:+ "/comments") JsUndefined ;;
  resolve (resp_data response).

Definition createComment (issueId : string) (data : JsValue) : Promise JsValue :=
  response <- api_post ("/issues/" +:+ issueId +:+ "/comments") data ;;
  resolve (resp_data response).

End Client.

(** *** The wrappers as one family *)

(** A call of one of the fourteen exported wrappers, with its arguments. *)
Inductive ApiCall : Type :=
| Signup (data : JsValue)
| Login (credentials : JsValue)
| GetCurrentUser
| GetProjects
| CreateProject (data : JsValue)
| GetProject (projectId : string)
| AddMember (projectId : string) (data : JsValue)
| GetIssues (projectId : string) (params : JsValue)
| CreateIssue (projectId : string) (data : JsValue)
| GetIssue (issueId : string)
| UpdateIssue (issueId : string) (data : JsValue)
| DeleteIssue (issueId : string)
| GetComments (issueId : string)
| CreateComment (issueId : string) (data : JsValue).

Definition invoke (server : RequestConfig -> option (Z * JsValue)) (c : ApiCall)
  : Promise JsValue :=
  match c with
  | Signup data => signup server data
  | Login credentials => login server credentials
  | GetCurrentUser => getCurrentUser server
  | GetProjects => getProjects server
  | CreateProject data => createProject server data
  | GetProject projectId => getProject server projectId
  | AddMember projectId data => addMember server projectId data
  | GetIssues projectId params => getIssues server projectId params
  | CreateIssue projectId data => createIssue server projectId data
  | GetIssue issueId => getIssue server issueId
  | UpdateIssue issueId data => updateIssue server issueId data
  | DeleteIssue issueId => deleteIssue server issueId
  | GetComments issueId => getComments server issueId
  | CreateComment issueId data => createComment server issueId data
  end.

(** The verb, the path, the body and the query object each wrapper names,
    before the interceptors run. *)
Definition wire_config (c : ApiCall) : RequestConfig :=
  match c with
  | Signup data => api_defaults POST "/auth/signup" data JsUndefined
  | Login credentials => api_defaults POST "/auth/login" credentials JsUndefined
  | GetCurrentUser => api_defaults GET "/auth/me" JsUndefined JsUndefined
  | GetProjects => api_defaults GET "/projects" JsUndefined JsUndefined
  | CreateProject data => api_defaults POST "/projects" data JsUndefined
  | GetProject projectId =>
      api_defaults GET ("/projects/" +:+ projectId) JsUndefined JsUndefined
  | AddMember projectId data =>
      api_defaults POST ("/projects/" +:+ projectId +:+ "/members") data JsUndefined
  | GetIssues projectId params =>
      api_defaults GET ("/projects/" +:+ projectId +:+ "/issues") JsUndefined
                   (default_arg params (JsObject []))
  | CreateIssue projectId data =>
      api_defaults POST ("/projects/" +:+ projectId +:+ "/issues") data JsUndefined
  | GetIssue issueId =>
      api_defaults GET ("/issues/" +:+ issueId) JsUndefined JsUndefined
  | UpdateIssue issueId data =>
      api_defaults PATCH ("/issues/" +:+ issueId) data JsUndefined
  | DeleteIssue issueId =>
      api_defaults DELETE ("/issues/" +:+ issueId) JsUndefined JsUndefined
  | GetComments issueId =>
      api_defaults GET ("/issues/" +:+ issueId +:+ "/comments") JsUndefined JsUndefined
  | CreateComment issueId data =>
      api_defaults POST ("/issues/" +:+ issueId +:+ "/comments") data JsUndefined
  end.

Definition is_deleteIssue (c : ApiCall) : bool :=
  match c with
  | DeleteIssue _ => true
  | _ => false
  end.

(** The requests transmitted so far, oldest first. *)
Definition sent_requests (tr : list Effect) : list RequestConfig :=
  flat_map (fun ev => match ev with EvSend config => [config] | _ => [] end) tr.

(** ** [context/AuthContext.jsx] *)

(** The two [useState] cells of the provider. *)
Record AuthState : Type := mkAuth {
  user : JsValue;
  loading : bool
}.

(** [useState(null)], [useState(true)] *)
Definition auth_initial : AuthState := mkAuth JsNull true.

Definition setUser (userData : JsValue) (st : AuthState) : AuthState :=
  mkAuth userData (loading st).

Definition setLoading (b : bool) (st : AuthState) : AuthState :=
  mkAuth (user st) b.

Section AuthProvider.

Variable server : RequestConfig -> option (Z * JsValue).

(** The effect run on mount. *)
Definition initAuth (st : AuthState) : Promise AuthState :=
  token <- getItem "token" ;;
  st' <- (if token_truthy token
          then
            try_catch
              (userData <- getCurrentUser server ;;
               resolve (setUser userData st))
              (fun _ =>
                 removeItem "token" ;;;
                 removeItem "user" ;;;
                 resolve st)
          else resolve st) ;;
  resolve (setLoading false st').

End AuthProvider.

(** ** The [catch] blocks of the pages *)

(** What a [catch] block does with the failure. *)
Inductive UiEffect : Type :=
| SetError (msg : JsValue)
| ShowToast (msg : JsValue) (type : string)
| ConsoleError (label : option string) (err : AxiosError).

Module LoginPage.
Definition handleSubmit_catch (err : AxiosError) : list UiEffect :=
  let errorMsg := js_or (error_detail err) (JsString "Login failed. Please try again.") in
  [ShowToast errorMsg "error"].
End LoginPage.

Module SignupPage.
Definition handleSubmit_catch (err : AxiosError) : list UiEffect :=
  let errorMsg := js_or (error_detail err) (JsString "Signup failed. Please try again.") in
  [SetError errorMsg; ShowToast errorMsg "error"].
End SignupPage.

Module ProjectsListPage.
Definition fetchProjects_catch (err : AxiosError) : list UiEffect :=
  let errorMsg := JsString "Failed to load projects" in
  [SetError errorMsg; ShowToast errorMsg "error"; ConsoleError None err].

Definition handleCreateProject_catch (err : AxiosError) : list UiEffect :=
  let errorMsg := js_or (error_detail err) (JsString "Failed to create project") in
  [ShowToast errorMsg "error"].
End ProjectsListPage.

Module ProjectDetailPage.
Definition fetchProject_catch (err : AxiosError) : list UiEffect :=
  [SetError (JsString "Failed to load project"); ConsoleError None err].

Definition handleAddMember_catch (err : AxiosError) : list UiEffect :=
  let errorMsg := js_or (error_detail err) (JsString "Failed to add member") in
  [SetError errorMsg; ShowToast errorMsg "error"].
End ProjectDetailPage.

Module IssuesListPage.
Definition fetchProject_catch (err : AxiosError) : list UiEffect :=
  [SetError (JsString "Failed to load project"); ConsoleError None err].

Definition fetchIssues_catch (err : AxiosError) : list UiEffect :=
  [SetError (JsString "Failed to load issues"); ConsoleError None err].

Definition handleCreateIssue_catch (err : AxiosError) : list UiEffect :=
  let errorMsg := js_or (error_detail err) (JsString "Failed to create issue") in
  [ShowToast errorMsg "error"].
End IssuesListPage.

Module IssueDetailPage.
Definition fetchIssue_catch (err : AxiosError) : list UiEffect :=
  [SetError (JsString "Failed to load issue"); ConsoleError None err].

Definition fetchComments_catch (err : AxiosError) : list UiEffect :=
  [ConsoleError (Some "Failed to load comments:") err].

Definition handleAddComment_catch (err : AxiosError) : list UiEffect :=
  [ShowToast (JsString "Failed to add comment") "error"].

Definition handleUpdateIssue_catch (err : AxiosError) : list UiEffect :=
  let errorMsg := js_or (error_detail err) (JsString "Failed to update issue") in
  [ShowToast errorMsg "error"].

Definition handleDeleteIssue_catch (err : AxiosError) : list UiEffect :=
  let errorMsg := js_or (error_detail err) (JsString "Failed to delete issue") in
  [ShowToast errorMsg "error"].
End IssueDetailPage.

(** Every place where a page catches the failure of an API call. *)
Inductive CatchSite : Type :=
| Login_handleSubmit
| Signup_handleSubmit
| ProjectsList_fetchProjects
| ProjectsList_handleCreateProject
| ProjectDetail_fetchProject
| ProjectDetail_handleAddMember
| IssuesList_fetchProject
| IssuesList_fetchIssues
| IssuesList_handleCreateIssue
| IssueDetail_fetchIssue
| IssueDetail_fetchComments
| IssueDetail_handleAddComment
| IssueDetail_handleUpdateIssue
| IssueDetail_handleDeleteIssue.

Definition on_catch (site : CatchSite) : AxiosError -> list UiEffect :=
  match site with
  | Login_handleSubmit => LoginPage.handleSubmit_catch
  | Signup_handleSubmit => SignupPage.handleSubmit_catch
  | ProjectsList_fetchProjects => ProjectsListPage.fetchProjects_catch
  | ProjectsList_handleCreateProject => ProjectsListPage.handleCreateProject_catch
  | ProjectDetail_fetchProject => ProjectDetailPage.fetchProject_catch
  | ProjectDetail_handleAddMember => ProjectDetailPage.handleAddMember_catch
  | IssuesList_fetchProject => IssuesListPage.fetchProject_catch
  | IssuesList_fetchIssues => IssuesListPage.fetchIssues_catch
  | IssuesList_handleCreateIssue => IssuesListPage.handleCreateIssue_catch
  | IssueDetail_fetchIssue => IssueDetailPage.fetchIssue_catch
  | IssueDetail_fetchComments => IssueDetailPage.fetchComments_catch
  | IssueDetail_handleAddComment => IssueDetailPage.handleAddComment_catch
  | IssueDetail_handleUpdateIssue => IssueDetailPage.handleUpdateIssue_catch
  | IssueDetail_handleDeleteIssue => IssueDetailPage.handleDeleteIssue_catch
  end.

(** The messages put in front of the user: the error banner and the toasts. *)
Definition user_messages (effects : list UiEffect) : list JsValue :=
  flat_map (fun ef => match ef with
                      | SetError msg => [msg]
                      | ShowToast msg _ => [msg]
                      | ConsoleError _ _ => []
                      end) effects.

(** The sites whose message is built from [err.response?.data?.detail]. *)
Definition reads_detail (site : CatchSite) : bool :=
  match site with
  | Login_handleSubmit | Signup_handleSubmit
  | ProjectsList_handleCreateProject | ProjectDetail_handleAddMember
  | IssuesList_handleCreateIssue
  | IssueDetail_handleUpdateIssue | IssueDetail_handleDeleteIssue => true
  | _ => false
  end.

(** The fixed text of each site. *)
Definition static_message (site : CatchSite) : string :=
  match site with
  | Login_handleSubmit => "Login failed. Please try again."
  | Signup_handleSubmit => "Signup failed. Please try again."
  | ProjectsList_fetchProjects => "Failed to load projects"
  | ProjectsList_handleCreateProject => "Failed to create project"
  | ProjectDetail_fetchProject => "Failed to load project"
  | ProjectDetail_handleAddMember => "Failed to add member"
  | IssuesList_fetchProject => "Failed to load project"
  | IssuesList_fetchIssues => "Failed to load issues"
  | IssuesList_handleCreateIssue => "Failed to create issue"
  | IssueDetail_fetchIssue => "Failed to load issue"
  | IssueDetail_fetchComments => "Failed to load comments:"
  | IssueDetail_handleAddComment => "Failed to add comment"
  | IssueDetail_handleUpdateIssue => "Failed to update issue"
  | IssueDetail_handleDeleteIssue => "Failed to delete issue"
  end.

(** ** Scenarios *)

Definition world_of (token : option string) (path : string) : World :=
  mkWorld (match token with
           | Some t => {[ "token" := t; "user" := "{}" ]}
           | None => ∅
           end) path [].

(** A backend that answers every request with one status and body. *)
Definition server_always (status : Z) (body : JsValue)
  : RequestConfig -> option (Z * JsValue) :=
  fun _ => Some (status, body).

(** A network that delivers no response. *)
Definition server_unreachable : RequestConfig -> option (Z * JsValue) :=
  fun _ => None.

Definition detail_body (text : string) : JsValue :=
  JsObject [("detail", JsString text)].

Definition error_of (status : Z) (body : JsValue) (config : RequestConfig)
  : AxiosError :=
  mkError "Request failed" config (Some (mkResponse status body config)).

(** A signed-in user on the projects page. *)
Definition world_signed_in : World := world_of (Some "abc") "/projects".

(** A visitor on the login page, nothing stored. *)
Definition world_signed_out : World := world_of None "/login".

(** The empty string stored under the token key. *)
Definition world_empty_token : World := world_of (Some "") "/projects".

Definition body_unauthorized : JsValue := detail_body "Could not validate credentials".
Definition body_forbidden : JsValue := detail_body "Only maintainers can add members".
Definition body_unavailable : JsValue := detail_body "Database unavailable".

Definition new_member : JsValue :=
  JsObject [("email", JsString "ann@example.com"); ("role", JsString "member")].

Definition credentials_sample : JsValue :=
  JsObject [("email", JsString "ann@example.com"); ("password", JsString "hunter22")].

(** The error axios builds when the transport delivers nothing. *)
Definition network_error (config : RequestConfig) : AxiosError :=
  mkError "Network Error" config None.

Definition body_deleted : JsValue :=
  JsObject [("message", JsString "Issue deleted")].

(** ** More of [context/AuthContext.jsx] *)

(** [String(v)], the conversion [localStorage.setItem] applies to its
    value.  Integers print in decimal, as JavaScript prints them below
    10^21; [null] and [undefined] print as nothing inside an array. *)
Fixpoint js_to_string (v : JsValue) : string :=
  match v with
  | JsUndefined => "undefined"
  | JsNull => "null"
  | JsBool true => "true"
  | JsBool false => "false"
  | JsNumber n => pretty n
  | JsString s => s
  | JsArray items =>
      (fix join (l : list JsValue) : string :=
         match l with
         | [] => ""
         | x :: rest =>
             let here := match x with
                         | JsUndefined | JsNull => ""
                         | _ => js_to_string x
                         end in
             match rest with
             | [] => here
             | _ :: _ => here +:+ "," +:+ join rest
             end
         end) items
  | JsObject _ => "[object Object]"
  end.

(** [localStorage.setItem(key, value)].  The effect log has no entry for
    writes: the store itself shows them. *)
Definition setItem (key : string) (value : JsValue) : Promise unit :=
  fun w =>
    (Fulfilled tt,
     mkWorld (<[key := js_to_string value]> (localStorage w)) (pathname w) (trace w)).

(** A thrown [TypeError]: an error without a response.  Nothing in the
    code reads the configuration of such an error. *)
Definition type_error (message : string) : AxiosError :=
  mkError message (api_defaults GET "" JsUndefined JsUndefined) None.

(** [v.key] and [const { key } = v]: reading a property of [null] or
    [undefined] throws. *)
Definition js_get (v : JsValue) (key : string) : Promise JsValue :=
  match v with
  | JsUndefined | JsNull =>
      reject (type_error ("Cannot read properties of nullish value: " +:+ key))
  | _ => resolve (js_opt_get v key)
  end.

Module authAPI.
Definition signup := signup.
Definition login := login.
Definition getCurrentUser := getCurrentUser.
End authAPI.

Module AuthContext.
Section Provider.

Variable server : RequestConfig -> option (Z * JsValue).

(** Login user and store token. *)
Definition login (st : AuthState) (email password : string)
  : Promise (JsValue * AuthState) :=
  data <- authAPI.login server
            (JsObject [("email", JsString email); ("password", JsString password)]) ;;
  access_token <- js_get data "access_token" ;;
  setItem "token" access_token ;;;
  userData <- authAPI.getCurrentUser server ;;
  resolve (userData, setUser userData st).

(** Signup new user, then log in. *)
Definition signup (st : AuthState) (name email password : string)
  : Promise (JsValue * AuthState) :=
  userData <- authAPI.signup server
                (JsObject [("name", JsString name); ("email", JsString email);
                           ("password", JsString password)]) ;;
  logged <- login st email password ;;
  resolve (userData, snd logged).

(** Logout user and clear token. *)
Definition logout (st : AuthState) : Promise AuthState :=
  removeItem "token" ;;;
  removeItem "user" ;;;
  resolve (setUser JsNull st).

End Provider.
End AuthContext.

(** ** More JavaScript *)

(** [a === b] between values parsed from different responses or typed by
    the user: primitives compare by type and value; two objects or arrays
    of different origin are never the same object. *)
Definition js_strict_eq (a b : JsValue) : bool :=
  match a, b with
  | JsUndefined, JsUndefined => true
  | JsNull, JsNull => true
  | JsBool x, JsBool y => Bool.eqb x y
  | JsNumber x, JsNumber y => (x =? y)%Z
  | JsString x, JsString y => String.eqb x y
  | _, _ => false
  end.

(** [{ ...obj, [k]: v }]: a key already there keeps its place and takes
    the new value; a new key goes last. *)
Fixpoint obj_set (k : string) (v : JsValue) (fields : list (string * JsValue))
  : list (string * JsValue) :=
  match fields with
  | [] => [(k, v)]
  | (k', v') :: rest =>
      if String.eqb k k' then (k, v) :: rest else (k', v') :: obj_set k v rest
  end.

(** [v !== '' && v !== null], the test a filter passes to reach the
    query. *)
Definition kept_in_query (v : JsValue) : bool :=
  negb (js_strict_eq v (JsString "")) && negb (js_strict_eq v JsNull).

(** [Object.keys(obj)] for objects whose keys are identifiers. *)
Definition obj_keys (fields : list (string * JsValue)) : list string :=
  map fst fields.

(** ** The handlers of the pages *)

(** What a handler does to its page, in program order: [useState]
    setters, toasts, navigation, console output. *)
Inductive PageEffect : Type :=
| SetState (cell : string) (value : JsValue)
| Toast (msg : JsValue) (type : string)
| Navigate (to : string)
| Console (label : option string) (err : AxiosError).

Definition of_ui (ef : UiEffect) : PageEffect :=
  match ef with
  | SetError msg => SetState "error" msg
  | ShowToast msg type => Toast msg type
  | ConsoleError label err => Console label err
  end.

Definition loading_is (b : bool) : PageEffect := SetState "loading" (JsBool b).

Module LoginForm.
Section Handlers.

Variable server : RequestConfig -> option (Z * JsValue).

(** [Login.handleSubmit], after [e.preventDefault()]. *)
Definition handleSubmit (auth : AuthState) (email password : string)
  : Promise (AuthState * list PageEffect) :=
  let start := [SetState "error" (JsString ""); loading_is true] in
  then_ (AuthContext.login server auth email password)
    (fun logged =>
       resolve (snd logged,
                start ++ [Toast (JsString "Login successful! Welcome back.") "success";
                          Navigate "/projects"]
                      ++ [loading_is false]))
    (fun err =>
       resolve (auth,
                start ++ map of_ui (LoginPage.handleSubmit_catch err)
                      ++ [loading_is false])).

End Handlers.
End LoginForm.

Module SignupForm.
Section Handlers.

Variable server : RequestConfig -> option (Z * JsValue).

(** [s.length]: the number of UTF-16 code units of a text. *)
Variable js_length : string -> nat.

(** [Signup.handleSubmit], after [e.preventDefault()]. *)
Definition handleSubmit (auth : AuthState) (name email password : string)
  : Promise (AuthState * list PageEffect) :=
  let start := [SetState "error" (JsString ""); loading_is true] in
  if Nat.ltb (js_length password) 8
  then
    let errorMsg := JsString "Password must be at least 8 characters long" in
    resolve (auth, start ++ [SetState "error" errorMsg; Toast errorMsg "error";
                             loading_is false])
  else
    then_ (AuthContext.signup server auth name email password)
      (fun signed =>
         resolve (snd signed,
                  start ++ [Toast (JsString "Account created successfully! Welcome to IssueHub.")
                                  "success";
                            Navigate "/projects"]
                        ++ [loading_is false]))
      (fun err =>
         resolve (auth,
                  start ++ map of_ui (SignupPage.handleSubmit_catch err)
                        ++ [loading_is false])).

End Handlers.
End SignupForm.

Module IssuesListFlow.

(** The object built at the top of [fetchIssues]: the filters whose value
    is neither the empty string nor [null]. *)
Definition cleanParams (filters : list (string * JsValue)) : list (string * JsValue) :=
  fold_left
    (fun cleanParams key =>
       if negb (js_strict_eq (assoc_get key filters) (JsString ""))
          && negb (js_strict_eq (assoc_get key filters) JsNull)
       then obj_set key (assoc_get key filters) cleanParams
       else cleanParams)
    (obj_keys filters) [].

(** [useState] initial value of the filters. *)
Definition filters_initial : list (string * JsValue) :=
  [("q", JsString ""); ("status", JsString ""); ("priority", JsString "");
   ("assignee_id", JsString ""); ("sort", JsString "created_at");
   ("page", JsNumber 1); ("page_size", JsNumber 20)].

(** [handleFilterChange]: the next value of the filters. *)
Definition handleFilterChange (filters : list (string * JsValue))
    (field : string) (value : JsValue) : list (string * JsValue) :=
  obj_set field value filters.

(** The form after a successful creation. *)
Definition newIssue_reset : list (string * JsValue) :=
  [("title", JsString ""); ("description", JsString "");
   ("priority", JsString "medium"); ("assignee_id", JsString "")].

(** [{ ...newIssue, assignee_id: newIssue.assignee_id || null }] *)
Definition createIssue_body (newIssue : list (string * JsValue)) : JsValue :=
  JsObject (obj_set "assignee_id"
                    (js_or (assoc_get "assignee_id" newIssue) JsNull) newIssue).

Section Handlers.

Variable server : RequestConfig -> option (Z * JsValue).

Definition fetchIssues (projectId : string) (filters : list (string * JsValue))
  : Promise (list PageEffect) :=
  let start := [loading_is true] in
  then_ (data <- getIssues server projectId (JsObject (cleanParams filters)) ;;
         js_get data "issues")
    (fun issues => resolve (start ++ [SetState "issues" issues] ++ [loading_is false]))
    (fun err =>
       resolve (start ++ map of_ui (IssuesListPage.fetchIssues_catch err)
                      ++ [loading_is false])).

(** [handleCreateIssue], after [e.preventDefault()].  The reload at the
    end of the [try] block is started, not awaited; it cannot reject, and
    its effects come after those of the handler. *)
Definition handleCreateIssue (projectId : string)
    (newIssue filters : list (string * JsValue)) : Promise (list PageEffect) :=
  then_ (createIssue server projectId (createIssue_body newIssue))
    (fun _ =>
       reload <- fetchIssues projectId filters ;;
       resolve ([Toast (JsString "Issue created successfully!") "success";
                 SetState "showModal" (JsBool false);
                 SetState "newIssue" (JsObject newIssue_reset)] ++ reload))
    (fun err => resolve (map of_ui (IssuesListPage.handleCreateIssue_catch err))).

End Handlers.
End IssuesListFlow.

Module ProjectDetailView.

(** [v.key] while rendering: [None] stands for the [TypeError] thrown on
    [null] and [undefined]. *)
Definition member (v : JsValue) (key : string) : option JsValue :=
  match v with
  | JsUndefined | JsNull => None
  | _ => Some (js_opt_get v key)
  end.

(** [m => m.user.id === user.id && m.role === 'maintainer'] *)
Definition is_maintainer_entry (user m : JsValue) : option bool :=
  m_user ← member m "user";
  m_id ← member m_user "id";
  user_id ← member user "id";
  if js_strict_eq m_id user_id
  then role ← member m "role"; Some (js_strict_eq role (JsString "maintainer"))
  else Some false.

(** [items.find(callback)] *)
Fixpoint array_find (callback : JsValue -> option bool) (items : list JsValue)
  : option JsValue :=
  match items with
  | [] => Some JsUndefined
  | m :: rest =>
      match callback m with
      | None => None
      | Some true => Some m
      | Some false => array_find callback rest
      end
  end.

(** What the callback computes on an entry it can read. *)
Definition member_matches (user m : JsValue) : bool :=
  js_strict_eq (js_opt_get (js_opt_get m "user") "id") (js_opt_get user "id")
  && js_strict_eq (js_opt_get m "role") (JsString "maintainer").

(** A membership entry as the backend sends it: an object with a user
    object inside. *)
Definition well_formed_member (m : JsValue) : Prop :=
  ∃ fields ufields, m = JsObject fields ∧ assoc_get "user" fields = JsObject ufields.

(** [project?.members?.find(...)]: calling [find] on something that is
    neither nullish nor an array throws. *)
Definition isMaintainer (project user : JsValue) : option JsValue :=
  match js_opt_get project "members" with
  | JsUndefined | JsNull => Some JsUndefined
  | JsArray items => array_find (is_maintainer_entry user) items
  | _ => None
  end.

End ProjectDetailView.

(** ** Scenarios for the provider and the pages *)

Definition profile_ann : JsValue :=
  JsObject [("id", JsNumber 7); ("name", JsString "Ann");
            ("email", JsString "ann@example.com")].

Definition token_body : JsValue :=
  JsObject [("access_token", JsString "abc"); ("token_type", JsString "bearer")].

(** A backend with one account: it signs up and logs in anybody, and
    answers every other request according to the bearer token. *)
Definition server_demo : RequestConfig -> option (Z * JsValue) :=
  fun config =>
    if String.eqb (cfg_url config) "/auth/signup" then Some (201%Z, profile_ann)
    else if String.eqb (cfg_url config) "/auth/login" then Some (200%Z, token_body)
    else if bool_decide (cfg_headers config !! "Authorization" = Some "Bearer abc")
         then Some (200%Z, profile_ann)
         else Some (401%Z, body_unauthorized).

(** The same backend while its profile endpoint is broken. *)
Definition server_profile_down : RequestConfig -> option (Z * JsValue) :=
  fun config =>
    if String.eqb (cfg_url config) "/auth/login" then Some (200%Z, token_body)
    else Some (500%Z, body_unavailable).

(** A backend whose login answer has no token in it. *)
Definition server_no_token : RequestConfig -> option (Z * JsValue) :=
  fun config =>
    if String.eqb (cfg_url config) "/auth/login"
    then Some (200%Z, JsObject [("token_type", JsString "bearer")])
    else Some (401%Z, body_unauthorized).

Definition credentials_of (email password : string) : JsValue :=
  JsObject [("email", JsString email); ("password", JsString password)].

Definition signup_data (name email password : string) : JsValue :=
  JsObject [("name", JsString name); ("email", JsString email);
            ("password", JsString password)].

Definition issues_body : JsValue :=
  JsObject [("issues", JsArray [JsObject [("id", JsNumber 1);
                                          ("title", JsString "Crash on save")]]);
            ("total", JsNumber 1)].

Definition body_invalid : JsValue := detail_body "Title must not be empty".

Definition newIssue_sample : list (string * JsValue) :=
  [("title", JsString "Crash on save"); ("description", JsString "");
   ("priority", JsString "high"); ("assignee_id", JsString "")].

Definition member_bob : JsValue :=
  JsObject [("user", JsObject [("id", JsNumber 8); ("name", JsString "Bob")]);
            ("role", JsString "member")].

Definition member_ann : JsValue :=
  JsObject [("user", profile_ann); ("role", JsString "maintainer")].

Definition project_demo : JsValue :=
  JsObject [("id", JsNumber 5); ("name", JsString "API");
            ("members", JsArray [member_bob; member_ann])].

(** * Properties *)

(** ** The interceptors on their own *)

Lemma token_truthy_Some (t : string) : t ≠ "" → token_truthy (Some t) = true.
Proof.
  intros Hne. simpl. destruct (String.eqb_spec t ""); [contradiction | reflexivity].
Qed.

Lemma request_onFulfilled_truthy (config : RequestConfig) (w : World) (t : string) :
  localStorage w !! "token" = Some t → t ≠ "" →
  request_onFulfilled config w
  = (Fulfilled (set_header "Authorization" ("Bearer " +:+ t) config), w).
Proof.
  intros Hget Hne.
  unfold request_onFulfilled, await, then_, getItem.
  rewrite Hget, (token_truthy_Some t Hne). reflexivity.
Qed.

Lemma request_onFulfilled_falsy (config : RequestConfig) (w : World) :
  token_truthy (localStorage w !! "token") = false →
  request_onFulfilled config w = (Fulfilled config, w).
Proof.
  intros Hfalsy.
  unfold request_onFulfilled, await, then_, getItem.
  rewrite Hfalsy. reflexivity.
Qed.

Lemma request_onFulfilled_outgoing (config : RequestConfig) (w : World) :
  request_onFulfilled config w = (Fulfilled (outgoing config w), w).
Proof.
  unfold outgoing, request_onFulfilled, await, then_, getItem.
  destruct (token_truthy (localStorage w !! "token")); reflexivity.
Qed.

(** The world after the 401 branch of the response interceptor. *)
Lemma response_onRejected_401 (error : AxiosError) (w : World) :
  error_status error = JsNumber 401 →
  response_onRejected error w
  = (Rejected error,
     mkWorld (delete "user" (delete "token" (localStorage w))) (pathname w)
             (trace w ++ EvRemoveItem "token" :: EvRemoveItem "user"
                :: (if String.eqb (pathname w) "/login"
                    then [] else [EvAssignHref "/login"]))).
Proof.
  intros Hst.
  unfold response_onRejected. rewrite Hst. simpl.
  unfold await, then_, removeItem, location_pathname, assign_href, log, resolve, reject.
  simpl.
  destruct (String.eqb (pathname w) "/login"); simpl;
    rewrite <- ?app_assoc; reflexivity.
Qed.

Lemma response_onRejected_other (error : AxiosError) (w : World) :
  js_strict_eq_number (error_status error) 401 = false →
  response_onRejected error w = (Rejected error, w).
Proof.
  intros Hst. unfold response_onRejected. rewrite Hst. reflexivity.
Qed.

(** ** The interceptor chain *)

Section ClientProperties.

Variable server : RequestConfig -> option (Z * JsValue).

Lemma api_request_unfold (config : RequestConfig) (w : World) :
  api_request server config w
  = let sent := outgoing config w in
    let w1 := log (EvSend sent) w in
    match server sent with
    | None => response_onRejected (mkError "Network Error" sent None) w1
    | Some (status, body) =>
        if validateStatus status
        then (Fulfilled (mkResponse status body sent), w1)
        else response_onRejected
               (mkError "Request failed" sent
                        (Some (mkResponse status body sent))) w1
    end.
Proof.
  unfold api_request, then_ at 1 2 3, resolve at 1.
  rewrite request_onFulfilled_outgoing.
  unfold dispatchRequest. simpl.
  destruct (server (outgoing config w)) as [[status body]|]; [|reflexivity].
  destruct (validateStatus status); reflexivity.
Qed.

(** Only the transport step transmits: the interceptors add no request. *)
Lemma response_onRejected_trace (error : AxiosError) (w : World) :
  sent_requests (trace (snd (response_onRejected error w)))
  = sent_requests (trace w).
Proof.
  destruct (js_strict_eq_number (error_status error) 401) eqn:Hst.
  - destruct (error_status error) as [| | | n | | |] eqn:Hes; try discriminate.
    simpl in Hst. apply Z.eqb_eq in Hst. subst n.
    rewrite (response_onRejected_401 error w Hes). simpl.
    unfold sent_requests. rewrite flat_map_app. simpl.
    destruct (String.eqb (pathname w) "/login"); simpl; apply app_nil_r.
  - rewrite (response_onRejected_other error w Hst). reflexivity.
Qed.

Lemma api_request_sends_once (config : RequestConfig) (w : World) :
  sent_requests (trace (snd (api_request server config w)))
  = sent_requests (trace w) ++ [outgoing config w].
Proof.
  assert (Hlog : sent_requests (trace (log (EvSend (outgoing config w)) w))
                 = sent_requests (trace w) ++ [outgoing config w]).
  { unfold sent_requests, log. simpl. rewrite flat_map_app. reflexivity. }
  rewrite api_request_unfold. cbv zeta.
  destruct (server (outgoing config w)) as [[status body]|].
  - destruct (validateStatus status).
    + exact Hlog.
    + rewrite response_onRejected_trace. exact Hlog.
  - rewrite response_onRejected_trace. exact Hlog.
Qed.

(** Each wrapper is one pass through the chain; [deleteIssue] alone drops
    the body. *)
Lemma invoke_unfold (c : ApiCall) (w : World) :
  invoke server c w
  = match api_request server (wire_config c) w with
    | (Fulfilled response, w') =>
        (Fulfilled (if is_deleteIssue c then JsUndefined else resp_data response), w')
    | (Rejected error, w') => (Rejected error, w')
    end.
Proof.
  destruct c; simpl;
    unfold signup, login, getCurrentUser, getProjects, createProject, getProject,
           addMember, getIssues, createIssue, getIssue, updateIssue, deleteIssue,
           getComments, createComment,
           api_get, api_post, api_patch, api_delete, await, then_;
    match goal with
    | |- context [api_request server ?cfg w] =>
        destruct (api_request server cfg w) as [[response|error] w']
    end; reflexivity.
Qed.

(** ** The session on authentication failure *)

(** C1. Whatever the request (path, method, body), when the answer to the
    transmitted request has status 401 the client removes the token and
    then the cached user from the session store, once each, and after that
    assigns the login location exactly when the current path is not
    already the login path: the effects after the transmission are the two
    removals followed by the redirect, if any, and nothing else. *)
Theorem unauthorized_clears_session_then_redirects
    (config : RequestConfig) (w : World) (body : JsValue) :
  server (outgoing config w) = Some (401%Z, body) →
  let w' := snd (api_request server config w) in
  localStorage w' = delete "user" (delete "token" (localStorage w))
  ∧ localStorage w' !! "token" = None
  ∧ localStorage w' !! "user" = None
  ∧ trace w'
    = trace w ++ EvSend (outgoing config w)
        :: EvRemoveItem "token" :: EvRemoveItem "user"
        :: (if String.eqb (pathname w) "/login"
            then [] else [EvAssignHref "/login"]).
Proof.
  intros Hsrv w'. subst w'.
  rewrite api_request_unfold. cbv zeta. rewrite Hsrv.
  change (validateStatus 401) with false. cbv iota.
  rewrite response_onRejected_401 by reflexivity.
  simpl. repeat split.
  - rewrite lookup_delete_ne by discriminate. apply lookup_delete_eq.
  - apply lookup_delete_eq.
  - rewrite <- app_assoc. reflexivity.
Qed.

(** C3. When the answer to the transmitted request has a status outside
    2xx and different from 401, the call is rejected with an error whose
    response carries that very status and body, and the session store is
    untouched: the only effect is the transmission itself. *)
Theorem other_failure_leaves_session
    (config : RequestConfig) (w : World) (status : Z) (body : JsValue) :
  server (outgoing config w) = Some (status, body) →
  validateStatus status = false →
  status ≠ 401%Z →
  ∃ error w',
    api_request server config w = (Rejected error, w')
    ∧ err_response error = Some (mkResponse status body (outgoing config w))
    ∧ localStorage w' = localStorage w
    ∧ pathname w' = pathname w
    ∧ trace w' = trace w ++ [EvSend (outgoing config w)].
Proof.
  intros Hsrv Hval Hne.
  rewrite api_request_unfold. cbv zeta. rewrite Hsrv, Hval.
  rewrite response_onRejected_other.
  - eexists _, _. split; [reflexivity|]. simpl. auto.
  - simpl. apply Z.eqb_neq. exact Hne.
Qed.

(** C4. When the answer to the request of a wrapper call has status 401,
    the promise returned by the wrapper is rejected, and the rejection
    carries the error made from that 401 response. *)
Theorem unauthorized_still_rejects
    (c : ApiCall) (w : World) (body : JsValue) :
  server (outgoing (wire_config c) w) = Some (401%Z, body) →
  fst (invoke server c w)
  = Rejected (error_of 401 body (outgoing (wire_config c) w)).
Proof.
  intros Hsrv.
  rewrite invoke_unfold, api_request_unfold. cbv zeta. rewrite Hsrv.
  change (validateStatus 401) with false. cbv iota.
  rewrite response_onRejected_401 by reflexivity.
  reflexivity.
Qed.

(** C9. An error that carries no response goes through the response
    interceptor without any effect: the world (session store, location,
    effect log) is the same afterwards and the same error is rejected. *)
Theorem no_response_leaves_session (error : AxiosError) (w : World) :
  err_response error = None →
  response_onRejected error w = (Rejected error, w).
Proof.
  intros Hnone. apply response_onRejected_other.
  unfold error_status. rewrite Hnone. reflexivity.
Qed.

(** ** The bearer token on outgoing requests *)

(** C2, amended. While the session store holds a non-empty token, every
    call through the client transmits exactly one request, which is the
    caller's request with the Authorization header set to the text Bearer,
    a space and the token, replacing any value the caller gave. *)
Theorem bearer_attached_when_token_nonempty
    (config : RequestConfig) (w : World) (t : string) :
  localStorage w !! "token" = Some t →
  t ≠ "" →
  let sent := set_header "Authorization" ("Bearer " +:+ t) config in
  sent_requests (trace (snd (api_request server config w)))
  = sent_requests (trace w) ++ [sent]
  ∧ cfg_headers sent !! "Authorization" = Some ("Bearer " +:+ t).
Proof.
  intros Hget Hne sent. subst sent. split.
  - rewrite api_request_sends_once. unfold outgoing.
    rewrite (request_onFulfilled_truthy config w t Hget Hne). reflexivity.
  - simpl. apply lookup_insert_eq.
Qed.

(** C5. While the session store holds no token, a wrapper call transmits
    exactly one request, the one the wrapper names, and that request has
    no Authorization header. *)
Theorem no_header_without_token (c : ApiCall) (w : World) :
  localStorage w !! "token" = None →
  sent_requests (trace (snd (invoke server c w)))
  = sent_requests (trace w) ++ [wire_config c]
  ∧ cfg_headers (wire_config c) !! "Authorization" = None.
Proof.
  intros Hget. split.
  - rewrite invoke_unfold.
    pose proof (api_request_sends_once (wire_config c) w) as Hsent.
    unfold outgoing in Hsent.
    rewrite request_onFulfilled_falsy in Hsent by (rewrite Hget; reflexivity).
    simpl in Hsent.
    destruct (api_request server (wire_config c) w) as [[response|error] w'];
      exact Hsent.
  - destruct c; reflexivity.
Qed.

End ClientProperties.

(** C8. With the empty string stored under the token key, the request
    interceptor returns the configuration it was given, headers included,
    and changes nothing else: the key is there, yet its falsy value fails
    the test. *)
Theorem empty_token_attaches_nothing (config : RequestConfig) (w : World) :
  localStorage w !! "token" = Some "" →
  request_onFulfilled config w = (Fulfilled config, w).
Proof.
  intros Hget. apply request_onFulfilled_falsy. rewrite Hget. reflexivity.
Qed.

(** ** The wrappers *)

(** C6, amended. Every wrapper other than deleteIssue runs the client
    once on the verb, path, body and query object it names and returns
    the body of the response unchanged; deleteIssue runs the client once
    and resolves with undefined whatever the body; on failure every
    wrapper rejects with the client's error unchanged; in all cases the
    effects are those of that single client call. *)
Theorem wrappers_pass_through
    (server : RequestConfig -> option (Z * JsValue)) (c : ApiCall) (w : World) :
  invoke server c w
  = match api_request server (wire_config c) w with
    | (Fulfilled response, w') =>
        (Fulfilled (if is_deleteIssue c then JsUndefined else resp_data response), w')
    | (Rejected error, w') => (Rejected error, w')
    end.
Proof.
  exact (invoke_unfold server c w).
Qed.

(** ** Error messages of the pages *)

(** C7, amended. At the seven form handlers (login, signup, create
    project, add member, create issue, update issue, delete issue) every
    message shown is the detail field of the error body when that field is
    truthy, and the fixed text of the handler otherwise; at the other
    catch sites every message shown is the fixed text whatever the body;
    only the comment loader shows no message at all. *)
Theorem message_from_detail_or_static (site : CatchSite) (err : AxiosError) :
  Forall
    (fun msg =>
       msg = if reads_detail site && js_truthy (error_detail err)
             then error_detail err
             else JsString (static_message site))
    (user_messages (on_catch site err))
  ∧ (user_messages (on_catch site err) = [] ↔ site = IssueDetail_fetchComments).
Proof.
  split.
  - destruct site; simpl; unfold js_or;
      destruct (js_truthy (error_detail err)); repeat constructor.
  - destruct site; simpl; split; intros H; try discriminate H; reflexivity.
Qed.

(** ** Bootstrap of the provider *)


(** C10. On mount with a token in the session store for which the profile
    fetch is issued (a non-empty one), whatever the error with which that
    fetch is rejected, with or without a response, initAuth removes the
    token and the cached user from the store, leaves the user cell as it
    was, clears the loading flag and is fulfilled. *)
Theorem initAuth_recovers_from_any_failure
    (server : RequestConfig -> option (Z * JsValue))
    (st : AuthState) (w : World) (t : string) (error : AxiosError) :
  localStorage w !! "token" = Some t →
  t ≠ "" →
  fst (getCurrentUser server w) = Rejected error →
  ∃ w',
    initAuth server st w = (Fulfilled (mkAuth (user st) false), w')
    ∧ localStorage w' !! "token" = None
    ∧ localStorage w' !! "user" = None.
Proof.
  intros Hget Hne Hfail.
  unfold initAuth, try_catch, await, then_, getItem.
  rewrite Hget, (token_truthy_Some t Hne).
  destruct (getCurrentUser server w) as [[userData|error'] w1]; simpl in Hfail.
  - discriminate Hfail.
  - unfold removeItem, resolve. simpl.
    eexists. split; [reflexivity|]. simpl. split.
    + rewrite lookup_delete_ne by discriminate. apply lookup_delete_eq.
    + apply lookup_delete_eq.
Qed.

(** * Worked scenarios *)

(** GET /projects answered 401 while signed in on the projects page: the
    request goes out with the token, the store is emptied, the login
    location is assigned. *)
Lemma unauthorized_clears_session_then_redirects_witness :
  server_always 401 body_unauthorized
    (outgoing (wire_config GetProjects) world_signed_in)
  = Some (401%Z, body_unauthorized)
  ∧ trace (snd (api_request (server_always 401 body_unauthorized)
                            (wire_config GetProjects) world_signed_in))
    = [EvSend (set_header "Authorization" "Bearer abc" (wire_config GetProjects));
       EvRemoveItem "token"; EvRemoveItem "user"; EvAssignHref "/login"].
Proof.
  split; [reflexivity|].
  exact (proj2 (proj2 (proj2
    (unauthorized_clears_session_then_redirects
       (server_always 401 body_unauthorized)
       (wire_config GetProjects) world_signed_in body_unauthorized eq_refl)))).
Defined.

(** POST /projects/5/members answered 403: the token stays, the caller
    gets the status and the body. *)
Lemma other_failure_leaves_session_witness :
  (server_always 403 body_forbidden
     (outgoing (wire_config (AddMember "5" new_member)) world_signed_in)
   = Some (403%Z, body_forbidden)
   ∧ validateStatus 403 = false
   ∧ 403%Z ≠ 401%Z)
  ∧ ∃ error w',
      api_request (server_always 403 body_forbidden)
                  (wire_config (AddMember "5" new_member)) world_signed_in
      = (Rejected error, w')
      ∧ err_response error
        = Some (mkResponse 403 body_forbidden
                  (outgoing (wire_config (AddMember "5" new_member)) world_signed_in))
      ∧ localStorage w' = localStorage world_signed_in
      ∧ pathname w' = pathname world_signed_in
      ∧ trace w'
        = trace world_signed_in
          ++ [EvSend (outgoing (wire_config (AddMember "5" new_member)) world_signed_in)].
Proof.
  split.
  - split; [reflexivity|]. split; [reflexivity|]. lia.
  - apply (other_failure_leaves_session
             (server_always 403 body_forbidden)
             (wire_config (AddMember "5" new_member)) world_signed_in
             403 body_forbidden).
    + reflexivity.
    + reflexivity.
    + lia.
Defined.

(** A login with wrong credentials: the wrapper rejects with the 401. *)
Lemma unauthorized_still_rejects_witness :
  server_always 401 body_unauthorized
    (outgoing (wire_config (Login credentials_sample)) world_signed_out)
  = Some (401%Z, body_unauthorized)
  ∧ fst (invoke (server_always 401 body_unauthorized)
                (Login credentials_sample) world_signed_out)
    = Rejected (error_of 401 body_unauthorized (wire_config (Login credentials_sample))).
Proof.
  split; [reflexivity|].
  exact (unauthorized_still_rejects
           (server_always 401 body_unauthorized)
           (Login credentials_sample) world_signed_out body_unauthorized eq_refl).
Defined.

(** A network failure while signed in. *)
Lemma no_response_leaves_session_witness :
  err_response (network_error (wire_config GetProjects)) = None
  ∧ response_onRejected (network_error (wire_config GetProjects)) world_signed_in
    = (Rejected (network_error (wire_config GetProjects)), world_signed_in).
Proof.
  split; [reflexivity|].
  exact (no_response_leaves_session
           (network_error (wire_config GetProjects)) world_signed_in eq_refl).
Defined.

(** Token abc in the store, GET /projects: the header is Bearer abc. *)
Lemma bearer_attached_when_token_nonempty_witness :
  (localStorage world_signed_in !! "token" = Some "abc" ∧ "abc" ≠ "")
  ∧ sent_requests (trace (snd (api_request (server_always 200 (JsArray []))
                                           (wire_config GetProjects) world_signed_in)))
    = [set_header "Authorization" "Bearer abc" (wire_config GetProjects)]
  ∧ cfg_headers (set_header "Authorization" "Bearer abc" (wire_config GetProjects))
      !! "Authorization" = Some "Bearer abc".
Proof.
  split.
  - split; [reflexivity | discriminate].
  - apply (bearer_attached_when_token_nonempty
             (server_always 200 (JsArray []))
             (wire_config GetProjects) world_signed_in "abc").
    + reflexivity.
    + discriminate.
Defined.

(** Nothing stored, GET /projects: no Authorization header. *)
Lemma no_header_without_token_witness :
  localStorage world_signed_out !! "token" = None
  ∧ sent_requests (trace (snd (invoke (server_always 401 body_unauthorized)
                                      GetProjects world_signed_out)))
    = [wire_config GetProjects]
  ∧ cfg_headers (wire_config GetProjects) !! "Authorization" = None.
Proof.
  split; [reflexivity|].
  exact (no_header_without_token
           (server_always 401 body_unauthorized) GetProjects world_signed_out eq_refl).
Defined.

(** The empty token: the configuration comes back as it went in. *)
Lemma empty_token_attaches_nothing_witness :
  localStorage world_empty_token !! "token" = Some ""
  ∧ request_onFulfilled (wire_config GetProjects) world_empty_token
    = (Fulfilled (wire_config GetProjects), world_empty_token).
Proof.
  split; [reflexivity|].
  exact (empty_token_attaches_nothing
           (wire_config GetProjects) world_empty_token eq_refl).
Defined.

(** Bootstrap with a token while the network is down. *)
Lemma initAuth_recovers_from_any_failure_witness :
  (localStorage world_signed_in !! "token" = Some "abc"
   ∧ "abc" ≠ ""
   ∧ fst (getCurrentUser server_unreachable world_signed_in)
     = Rejected (network_error
                   (set_header "Authorization" "Bearer abc" (wire_config GetCurrentUser))))
  ∧ ∃ w',
      initAuth server_unreachable auth_initial world_signed_in
      = (Fulfilled (mkAuth (user auth_initial) false), w')
      ∧ localStorage w' !! "token" = None
      ∧ localStorage w' !! "user" = None.
Proof.
  split.
  - split; [reflexivity|]. split; [discriminate | reflexivity].
  - apply (initAuth_recovers_from_any_failure
             server_unreachable auth_initial world_signed_in "abc"
             (network_error
                (set_header "Authorization" "Bearer abc" (wire_config GetCurrentUser)))).
    + reflexivity.
    + discriminate.
    + reflexivity.
Defined.

(** * Where the specification and the code part *)

(** C2 as stated fails: with the empty string stored under the token key,
    GET /projects is transmitted once, as the wrapper built it, and its
    Authorization header is absent instead of being the text Bearer
    followed by the stored token. *)
Lemma bearer_missing_for_stored_empty_token :
  localStorage world_empty_token !! "token" = Some ""
  ∧ sent_requests (trace (snd (api_request (server_always 200 (JsArray []))
                                           (wire_config GetProjects) world_empty_token)))
    = [wire_config GetProjects]
  ∧ cfg_headers (wire_config GetProjects) !! "Authorization" = None
  ∧ cfg_headers (wire_config GetProjects) !! "Authorization"
    ≠ Some ("Bearer " +:+ "").
Proof.
  split; [reflexivity|]. split; [reflexivity|]. split; [reflexivity|].
  discriminate.
Qed.

(** C6 as stated fails: on a successful DELETE /issues/7 whose response
    has a body, deleteIssue resolves with undefined, not with the body. *)
Lemma deleteIssue_drops_response_body :
  fst (api_request (server_always 200 body_deleted)
                   (wire_config (DeleteIssue "7")) world_signed_in)
  = Fulfilled (mkResponse 200 body_deleted
                 (set_header "Authorization" "Bearer abc"
                    (wire_config (DeleteIssue "7"))))
  ∧ fst (deleteIssue (server_always 200 body_deleted) "7" world_signed_in)
    = Fulfilled JsUndefined
  ∧ JsUndefined ≠ body_deleted.
Proof.
  split; [reflexivity|]. split; [reflexivity|]. discriminate.
Qed.

(** C7 as stated fails: the project list, given a 500 whose body has a
    detail field, shows its own fixed text twice (banner and toast) and
    never the detail. *)
Lemma fetchProjects_ignores_detail :
  error_detail (error_of 500 body_unavailable (wire_config GetProjects))
  = JsString "Database unavailable"
  ∧ user_messages
      (ProjectsListPage.fetchProjects_catch
         (error_of 500 body_unavailable (wire_config GetProjects)))
    = [JsString "Failed to load projects"; JsString "Failed to load projects"]
  ∧ JsString "Failed to load projects" ≠ JsString "Database unavailable".
Proof.
  split; [reflexivity|]. split; [reflexivity|]. discriminate.
Qed.

(** * Further properties of the client *)

Section ClientFurther.

Variable server : RequestConfig -> option (Z * JsValue).

(** After a call answered 401 neither session key is left. *)
Lemma unauthorized_clears_gone (config : RequestConfig) (w : World) (body : JsValue) :
  server (outgoing config w) = Some (401%Z, body) →
  localStorage (snd (api_request server config w)) !! "token" = None
  ∧ localStorage (snd (api_request server config w)) !! "user" = None.
Proof.
  intros Hsrv.
  rewrite api_request_unfold. cbv zeta. rewrite Hsrv.
  change (validateStatus 401) with false. cbv iota.
  rewrite response_onRejected_401 by reflexivity. simpl. split.
  - rewrite lookup_delete_ne by discriminate. apply lookup_delete_eq.
  - apply lookup_delete_eq.
Qed.

(** X1. A call through the client is fulfilled exactly when the server
    answers the transmitted request with a 2xx status, and then the
    response handed to the caller holds that status, that body and the
    request as transmitted. *)
Theorem api_request_fulfilled_iff_2xx
    (config : RequestConfig) (w : World) (response : AxiosResponse) :
  fst (api_request server config w) = Fulfilled response
  ↔ ∃ status body,
      server (outgoing config w) = Some (status, body)
      ∧ (200 ≤ status < 300)%Z
      ∧ response = mkResponse status body (outgoing config w).
Proof.
  rewrite api_request_unfold. cbv zeta.
  assert (Hrej : ∀ e w0, fst (response_onRejected e w0) ≠ Fulfilled response).
  { intros e w0.
    destruct (js_strict_eq_number (error_status e) 401) eqn:Hst.
    - destruct (error_status e) as [| | | n | | |] eqn:Hes; try discriminate.
      simpl in Hst. apply Z.eqb_eq in Hst. subst n.
      rewrite (response_onRejected_401 e w0 Hes). discriminate.
    - rewrite (response_onRejected_other e w0 Hst). discriminate. }
  destruct (server (outgoing config w)) as [[status body]|].
  - destruct (validateStatus status) eqn:Hval.
    + unfold validateStatus in Hval. apply andb_true_iff in Hval as [Hlo Hhi].
      apply Z.leb_le in Hlo. apply Z.ltb_lt in Hhi.
      split.
      * intros Heq. simpl in Heq. injection Heq as <-.
        exists status, body. auto.
      * intros (s & b & Hsb & _ & ->). injection Hsb as <- <-. reflexivity.
    + split.
      * intros Heq. exfalso. exact (Hrej _ _ Heq).
      * intros (s & b & Hsb & [Hlo Hhi] & _). injection Hsb as <- <-.
        unfold validateStatus in Hval.
        apply Z.leb_le in Hlo. apply Z.ltb_lt in Hhi.
        rewrite Hlo, Hhi in Hval. discriminate.
  - split.
    + intros Heq. exfalso. exact (Hrej _ _ Heq).
    + intros (s & b & Hsb & _). discriminate.
Qed.

(** X2. Unless the answer is a response with status 401, a call through
    the client changes nothing but the log of transmissions: the session
    store and the location are as before, whether the call succeeded,
    failed with another status or got no response. *)
Theorem session_untouched_unless_401 (config : RequestConfig) (w : World) :
  (∀ body, server (outgoing config w) ≠ Some (401%Z, body)) →
  snd (api_request server config w) = log (EvSend (outgoing config w)) w.
Proof.
  intros Hnot.
  rewrite api_request_unfold. cbv zeta.
  destruct (server (outgoing config w)) as [[status body]|] eqn:Hsrv.
  - destruct (validateStatus status); [reflexivity|].
    rewrite response_onRejected_other; [reflexivity|].
    simpl. apply Z.eqb_neq. intros ->. exact (Hnot body eq_refl).
  - rewrite response_onRejected_other; reflexivity.
Qed.

(** X3. The client never writes to the session store: after any call,
    every key holds what it held before, except that the token and user
    keys may have been removed. *)
Theorem client_only_removes_session_keys
    (config : RequestConfig) (w : World) (k : string) :
  localStorage (snd (api_request server config w)) !! k = localStorage w !! k
  ∨ ((k = "token" ∨ k = "user")
     ∧ localStorage (snd (api_request server config w)) !! k = None).
Proof.
  rewrite api_request_unfold. cbv zeta.
  assert (Hrej : ∀ e w0,
             localStorage w0 = localStorage w →
             localStorage (snd (response_onRejected e w0)) !! k = localStorage w !! k
             ∨ ((k = "token" ∨ k = "user")
                ∧ localStorage (snd (response_onRejected e w0)) !! k = None)).
  { intros e w0 Hw0.
    destruct (js_strict_eq_number (error_status e) 401) eqn:Hst.
    - destruct (error_status e) as [| | | n | | |] eqn:Hes; try discriminate.
      simpl in Hst. apply Z.eqb_eq in Hst. subst n.
      rewrite (response_onRejected_401 e w0 Hes). simpl. rewrite Hw0.
      destruct (decide (k = "user")) as [->|Hu].
      + right. split; [auto|]. apply lookup_delete_eq.
      + destruct (decide (k = "token")) as [->|Ht].
        * right. split; [auto|].
          rewrite lookup_delete_ne by discriminate. apply lookup_delete_eq.
        * left. rewrite !lookup_delete_ne by congruence. reflexivity.
    - rewrite (response_onRejected_other e w0 Hst). simpl. left. congruence. }
  destruct (server (outgoing config w)) as [[status body]|].
  - destruct (validateStatus status).
    + left. reflexivity.
    + apply Hrej. reflexivity.
  - apply Hrej. reflexivity.
Qed.

(** X5. A 401 ends the session for the requests that follow: after a call
    answered 401, the request interceptor lets any next request out
    exactly as its caller wrote it, with no bearer token added. *)
Theorem unauthorized_ends_session
    (config next : RequestConfig) (w : World) (body : JsValue) :
  server (outgoing config w) = Some (401%Z, body) →
  outgoing next (snd (api_request server config w)) = next.
Proof.
  intros Hsrv.
  destruct (unauthorized_clears_gone config w body Hsrv) as [Htok _].
  unfold outgoing.
  rewrite request_onFulfilled_falsy; [reflexivity|].
  rewrite Htok. reflexivity.
Qed.

(** X6. Every wrapper transmits exactly one request per call, whatever
    the answer: there is no retry and no second request. *)
Theorem wrapper_sends_exactly_one_request (c : ApiCall) (w : World) :
  sent_requests (trace (snd (invoke server c w)))
  = sent_requests (trace w) ++ [outgoing (wire_config c) w].
Proof.
  rewrite invoke_unfold.
  pose proof (api_request_sends_once server (wire_config c) w) as Hsent.
  destruct (api_request server (wire_config c) w) as [[response|error] w'];
    exact Hsent.
Qed.

End ClientFurther.

(** X4. The request interceptor touches nothing but the Authorization
    header: base address, method, path, body, query object and every
    other header of the request leave as the caller gave them. *)
Theorem interceptor_touches_only_authorization (config : RequestConfig) (w : World) :
  cfg_baseURL (outgoing config w) = cfg_baseURL config
  ∧ cfg_method (outgoing config w) = cfg_method config
  ∧ cfg_url (outgoing config w) = cfg_url config
  ∧ cfg_data (outgoing config w) = cfg_data config
  ∧ cfg_params (outgoing config w) = cfg_params config
  ∧ ∀ name, name ≠ "Authorization" →
      cfg_headers (outgoing config w) !! name = cfg_headers config !! name.
Proof.
  unfold outgoing, request_onFulfilled, await, then_, getItem.
  destruct (token_truthy (localStorage w !! "token")); simpl;
    repeat split; try reflexivity.
  intros name Hne. apply lookup_insert_ne. congruence.
Qed.

(** * The provider: login, signup, logout, bootstrap *)

Lemma outgoing_same_store (config : RequestConfig) (w1 w2 : World) :
  localStorage w1 = localStorage w2 → outgoing config w1 = outgoing config w2.
Proof.
  intros Heq. unfold outgoing, request_onFulfilled, await, then_, getItem.
  rewrite Heq. destruct (token_truthy (localStorage w2 !! "token")); reflexivity.
Qed.

Lemma outgoing_with_token (config : RequestConfig) (w : World) (t : string) :
  localStorage w !! "token" = Some t → t ≠ "" →
  outgoing config w = set_header "Authorization" ("Bearer " +:+ t) config.
Proof.
  intros Hget Hne. unfold outgoing.
  rewrite (request_onFulfilled_truthy config w t Hget Hne). reflexivity.
Qed.

Section ProviderProperties.

Variable server : RequestConfig -> option (Z * JsValue).

Lemma api_request_success
    (config : RequestConfig) (w : World) (status : Z) (body : JsValue) :
  server (outgoing config w) = Some (status, body) →
  validateStatus status = true →
  api_request server config w
  = (Fulfilled (mkResponse status body (outgoing config w)),
     log (EvSend (outgoing config w)) w).
Proof.
  intros Hsrv Hval. rewrite api_request_unfold. cbv zeta.
  rewrite Hsrv, Hval. reflexivity.
Qed.

Lemma invoke_success (c : ApiCall) (w : World) (status : Z) (body : JsValue) :
  server (outgoing (wire_config c) w) = Some (status, body) →
  validateStatus status = true →
  invoke server c w
  = (Fulfilled (if is_deleteIssue c then JsUndefined else body),
     log (EvSend (outgoing (wire_config c) w)) w).
Proof.
  intros Hsrv Hval.
  rewrite invoke_unfold, (api_request_success _ _ _ _ Hsrv Hval). reflexivity.
Qed.

(** X7. Logout is local and final: it transmits nothing, removes the
    token and the cached user, leaves every other key of the store alone,
    sets the user to null, and afterwards requests leave without a bearer
    token. *)
Theorem logout_clears_session (st : AuthState) (w : World) :
  ∃ w',
    AuthContext.logout st w = (Fulfilled (mkAuth JsNull (loading st)), w')
    ∧ localStorage w' !! "token" = None
    ∧ localStorage w' !! "user" = None
    ∧ (∀ k, k ≠ "token" → k ≠ "user" → localStorage w' !! k = localStorage w !! k)
    ∧ sent_requests (trace w') = sent_requests (trace w)
    ∧ ∀ next, outgoing next w' = next.
Proof.
  eexists. split; [reflexivity|]. simpl.
  assert (Htok : delete "user" (delete "token" (localStorage w)) !! "token" = None).
  { rewrite lookup_delete_ne by discriminate. apply lookup_delete_eq. }
  split; [exact Htok|].
  split; [apply lookup_delete_eq|].
  split.
  { intros k Ht Hu. rewrite !lookup_delete_ne by congruence. reflexivity. }
  split.
  { unfold sent_requests. rewrite <- app_assoc, flat_map_app. simpl. apply app_nil_r. }
  intros next. unfold outgoing.
  rewrite request_onFulfilled_falsy; [reflexivity|]. simpl. rewrite Htok. reflexivity.
Qed.

(** The run of a login whose two requests both succeed. *)
Lemma login_run_success
    (st : AuthState) (email password : string) (w : World)
    (s1 s2 : Z) (body1 profile : JsValue) (tok : string) :
  server (outgoing (wire_config (Login (credentials_of email password))) w)
  = Some (s1, body1) →
  validateStatus s1 = true →
  js_opt_get body1 "access_token" = JsString tok →
  tok ≠ "" →
  server (set_header "Authorization" ("Bearer " +:+ tok) (wire_config GetCurrentUser))
  = Some (s2, profile) →
  validateStatus s2 = true →
  ∃ w',
    AuthContext.login server st email password w
    = (Fulfilled (profile, mkAuth profile (loading st)), w')
    ∧ localStorage w' = <["token" := tok]> (localStorage w)
    ∧ sent_requests (trace w')
      = sent_requests (trace w)
        ++ [outgoing (wire_config (Login (credentials_of email password))) w;
            set_header "Authorization" ("Bearer " +:+ tok) (wire_config GetCurrentUser)].
Proof.
  intros Hsrv1 Hval1 Htok Hne Hsrv2 Hval2.
  unfold AuthContext.login, authAPI.login, authAPI.getCurrentUser.
  change (login server (JsObject [("email", JsString email); ("password", JsString password)]))
    with (invoke server (Login (credentials_of email password))).
  change (getCurrentUser server) with (invoke server GetCurrentUser).
  unfold await at 1. unfold then_ at 1.
  rewrite (invoke_success _ _ _ _ Hsrv1 Hval1). simpl is_deleteIssue. cbv iota.
  destruct body1 as [| | | | | |fields]; simpl in Htok; try discriminate Htok.
  unfold await at 1. unfold then_ at 1. simpl js_get. unfold resolve at 1.
  simpl js_opt_get. rewrite Htok.
  unfold await at 1. unfold then_ at 1. unfold setItem at 1. simpl js_to_string.
  set (w2 := mkWorld _ _ _).
  assert (Hout : outgoing (wire_config GetCurrentUser) w2
                 = set_header "Authorization" ("Bearer " +:+ tok) (wire_config GetCurrentUser)).
  { apply outgoing_with_token; [|exact Hne]. subst w2. simpl. apply lookup_insert_eq. }
  unfold await at 1. unfold then_ at 1.
  rewrite (invoke_success GetCurrentUser w2 s2 profile); [|rewrite Hout; exact Hsrv2|exact Hval2].
  simpl is_deleteIssue. cbv iota. unfold resolve.
  eexists. split; [reflexivity|]. rewrite Hout. subst w2. simpl. split; [reflexivity|].
  unfold sent_requests. rewrite !flat_map_app. simpl.
  rewrite <- app_assoc. reflexivity.
Qed.

(** X8. A successful login is a round trip of the token: the text found
    under access_token in the login answer is stored under the token key,
    the profile fetch that follows is transmitted with that very text as
    bearer, and the profile it returns becomes both the result and the
    user of the provider. *)
Theorem login_stores_and_uses_token
    (st : AuthState) (email password : string) (w : World)
    (s1 s2 : Z) (body1 profile : JsValue) (tok : string) :
  server (outgoing (wire_config (Login (credentials_of email password))) w)
  = Some (s1, body1) →
  validateStatus s1 = true →
  js_opt_get body1 "access_token" = JsString tok →
  tok ≠ "" →
  server (set_header "Authorization" ("Bearer " +:+ tok) (wire_config GetCurrentUser))
  = Some (s2, profile) →
  validateStatus s2 = true →
  ∃ w',
    AuthContext.login server st email password w
    = (Fulfilled (profile, mkAuth profile (loading st)), w')
    ∧ localStorage w' = <["token" := tok]> (localStorage w)
    ∧ sent_requests (trace w')
      = sent_requests (trace w)
        ++ [outgoing (wire_config (Login (credentials_of email password))) w;
            set_header "Authorization" ("Bearer " +:+ tok) (wire_config GetCurrentUser)].
Proof.
  exact (login_run_success st email password w s1 s2 body1 profile tok).
Qed.

Lemma invoke_sends_once (c : ApiCall) (w : World) :
  sent_requests (trace (snd (invoke server c w)))
  = sent_requests (trace w) ++ [outgoing (wire_config c) w].
Proof.
  rewrite invoke_unfold.
  pose proof (api_request_sends_once server (wire_config c) w) as Hsent.
  destruct (api_request server (wire_config c) w) as [[response|error] w'];
    exact Hsent.
Qed.

(** Whatever the answer, a wrapper call adds nothing to the store. *)
Lemma invoke_never_writes (c : ApiCall) (w : World) (k v : string) :
  localStorage (snd (invoke server c w)) !! k = Some v →
  localStorage w !! k = Some v.
Proof.
  rewrite invoke_unfold, api_request_unfold. cbv zeta.
  assert (Hrej : ∀ e w0,
             localStorage w0 = localStorage w →
             localStorage (snd (response_onRejected e w0)) !! k = Some v →
             localStorage w !! k = Some v).
  { intros e w0 Hw0.
    destruct (js_strict_eq_number (error_status e) 401) eqn:Hst.
    - destruct (error_status e) as [| | | n | | |] eqn:Hes; try discriminate.
      simpl in Hst. apply Z.eqb_eq in Hst. subst n.
      rewrite (response_onRejected_401 e w0 Hes). simpl. rewrite Hw0.
      intros Hk.
      apply lookup_delete_Some in Hk as [_ Hk].
      apply lookup_delete_Some in Hk as [_ Hk]. exact Hk.
    - rewrite (response_onRejected_other e w0 Hst). simpl. congruence. }
  destruct (server (outgoing (wire_config c) w)) as [[status body]|].
  - destruct (validateStatus status).
    + simpl. auto.
    + specialize (Hrej (mkError "Request failed" (outgoing (wire_config c) w)
                                (Some (mkResponse status body (outgoing (wire_config c) w))))
                       (log (EvSend (outgoing (wire_config c) w)) w) eq_refl).
      destruct (response_onRejected _ _) as [[r|e] w']; exact Hrej.
  - specialize (Hrej (mkError "Network Error" (outgoing (wire_config c) w) None)
                     (log (EvSend (outgoing (wire_config c) w)) w) eq_refl).
    destruct (response_onRejected _ _) as [[r|e] w']; exact Hrej.
Qed.

(** X9. When the login request itself is rejected, login stops there:
    it rejects with the same error, transmits no profile fetch, and writes
    nothing to the session store. *)
Theorem login_rejected_stores_nothing
    (st : AuthState) (email password : string) (w : World) (e : AxiosError) :
  fst (invoke server (Login (credentials_of email password)) w) = Rejected e →
  fst (AuthContext.login server st email password w) = Rejected e
  ∧ sent_requests (trace (snd (AuthContext.login server st email password w)))
    = sent_requests (trace w)
      ++ [outgoing (wire_config (Login (credentials_of email password))) w]
  ∧ ∀ k v,
      localStorage (snd (AuthContext.login server st email password w)) !! k = Some v →
      localStorage w !! k = Some v.
Proof.
  intros Hrej.
  assert (Hrun : AuthContext.login server st email password w
                 = (Rejected e, snd (invoke server (Login (credentials_of email password)) w))).
  { unfold AuthContext.login, authAPI.login.
    change (login server (JsObject [("email", JsString email); ("password", JsString password)]))
      with (invoke server (Login (credentials_of email password))).
    unfold await at 1. unfold then_ at 1.
    destruct (invoke server (Login (credentials_of email password)) w) as [[r|e'] w'];
      simpl in Hrej; [discriminate|].
    injection Hrej as ->. reflexivity. }
  rewrite Hrun. cbn [fst snd]. split; [reflexivity|]. split.
  - apply invoke_sends_once.
  - intros k v. apply invoke_never_writes.
Qed.

(** The run of a login once its first request has been answered 2xx with
    an object: the token is written, then everything hangs on the profile
    fetch. *)
Lemma login_after_credentials
    (st : AuthState) (email password : string) (w : World)
    (s1 : Z) (fields : list (string * JsValue)) :
  server (outgoing (wire_config (Login (credentials_of email password))) w)
  = Some (s1, JsObject fields) →
  validateStatus s1 = true →
  AuthContext.login server st email password w
  = match invoke server GetCurrentUser
            (mkWorld (<["token" := js_to_string (assoc_get "access_token" fields)]>
                        (localStorage w))
                     (pathname w)
                     (trace w ++ [EvSend (outgoing (wire_config
                                    (Login (credentials_of email password))) w)]))
    with
    | (Fulfilled userData, w3) => (Fulfilled (userData, mkAuth userData (loading st)), w3)
    | (Rejected e, w3) => (Rejected e, w3)
    end.
Proof.
  intros Hsrv1 Hval1.
  unfold AuthContext.login, authAPI.login, authAPI.getCurrentUser.
  change (login server (JsObject [("email", JsString email); ("password", JsString password)]))
    with (invoke server (Login (credentials_of email password))).
  change (getCurrentUser server) with (invoke server GetCurrentUser).
  unfold await at 1. unfold then_ at 1.
  rewrite (invoke_success _ _ _ _ Hsrv1 Hval1). simpl is_deleteIssue. cbv iota.
  unfold await at 1. unfold then_ at 1. simpl js_get. unfold resolve at 1.
  unfold await at 1. unfold then_ at 1. unfold setItem at 1.
  unfold await at 1. unfold then_ at 1. simpl js_opt_get.
  unfold log. simpl localStorage. simpl pathname. simpl trace.
  destruct (invoke server GetCurrentUser _) as [[userData|e] w3]; reflexivity.
Qed.

(** X10. Login does not take the token back: when the login answer
    carried a token but the profile fetch is then refused with a status
    other than 2xx and 401, login rejects with that failure and the new
    token stays in the session store. *)
Theorem login_keeps_token_when_profile_fails
    (st : AuthState) (email password : string) (w : World)
    (s1 s2 : Z) (body1 body2 : JsValue) (tok : string) :
  server (outgoing (wire_config (Login (credentials_of email password))) w)
  = Some (s1, body1) →
  validateStatus s1 = true →
  js_opt_get body1 "access_token" = JsString tok →
  tok ≠ "" →
  server (set_header "Authorization" ("Bearer " +:+ tok) (wire_config GetCurrentUser))
  = Some (s2, body2) →
  validateStatus s2 = false →
  s2 ≠ 401%Z →
  ∃ w',
    AuthContext.login server st email password w
    = (Rejected (error_of s2 body2
                   (set_header "Authorization" ("Bearer " +:+ tok)
                               (wire_config GetCurrentUser))), w')
    ∧ localStorage w' = <["token" := tok]> (localStorage w).
Proof.
  intros Hsrv1 Hval1 Htok Hne Hsrv2 Hval2 Hs2.
  destruct body1 as [| | | | | |fields]; simpl in Htok; try discriminate Htok.
  rewrite (login_after_credentials st email password w s1 fields Hsrv1 Hval1).
  rewrite Htok. simpl js_to_string.
  set (w2 := mkWorld _ _ _).
  assert (Hout : outgoing (wire_config GetCurrentUser) w2
                 = set_header "Authorization" ("Bearer " +:+ tok) (wire_config GetCurrentUser)).
  { apply outgoing_with_token; [|exact Hne]. subst w2. simpl. apply lookup_insert_eq. }
  rewrite invoke_unfold, api_request_unfold. cbv zeta.
  rewrite Hout, Hsrv2, Hval2.
  rewrite response_onRejected_other by (simpl; apply Z.eqb_neq; exact Hs2).
  eexists. split; reflexivity.
Qed.

(** X11. Login does not check the answer for a token: when a 2xx login
    answer is an object without access_token, the profile fetch that
    follows is transmitted with the header Bearer undefined. *)
Theorem login_without_token_sends_undefined
    (st : AuthState) (email password : string) (w : World)
    (s1 : Z) (fields : list (string * JsValue)) :
  server (outgoing (wire_config (Login (credentials_of email password))) w)
  = Some (s1, JsObject fields) →
  validateStatus s1 = true →
  assoc_get "access_token" fields = JsUndefined →
  sent_requests (trace (snd (AuthContext.login server st email password w)))
  = sent_requests (trace w)
    ++ [outgoing (wire_config (Login (credentials_of email password))) w;
        set_header "Authorization" "Bearer undefined" (wire_config GetCurrentUser)].
Proof.
  intros Hsrv1 Hval1 Hmiss.
  rewrite (login_after_credentials st email password w s1 fields Hsrv1 Hval1).
  rewrite Hmiss. simpl js_to_string.
  set (w2 := mkWorld _ _ _).
  pose proof (invoke_sends_once GetCurrentUser w2) as Hsent.
  assert (Hout : outgoing (wire_config GetCurrentUser) w2
                 = set_header "Authorization" "Bearer undefined" (wire_config GetCurrentUser)).
  { apply (outgoing_with_token _ w2 "undefined"); [|discriminate].
    subst w2. simpl. apply lookup_insert_eq. }
  rewrite Hout in Hsent.
  assert (Hw2 : sent_requests (trace w2)
                = sent_requests (trace w)
                  ++ [outgoing (wire_config (Login (credentials_of email password))) w]).
  { subst w2. simpl. unfold sent_requests. rewrite flat_map_app. reflexivity. }
  rewrite Hw2, <- app_assoc in Hsent.
  destruct (invoke server GetCurrentUser w2) as [[userData|e] w3]; exact Hsent.
Qed.

(** X12. When the signup request is rejected, signup stops there: it
    rejects with the same error and no login is attempted, so exactly one
    request has been transmitted. *)
Theorem signup_rejected_skips_login
    (st : AuthState) (name email password : string) (w : World) (e : AxiosError) :
  fst (invoke server
         (Signup (JsObject [("name", JsString name); ("email", JsString email);
                            ("password", JsString password)])) w) = Rejected e →
  fst (AuthContext.signup server st name email password w) = Rejected e
  ∧ sent_requests (trace (snd (AuthContext.signup server st name email password w)))
    = sent_requests (trace w)
      ++ [outgoing (wire_config
                      (Signup (JsObject [("name", JsString name); ("email", JsString email);
                                         ("password", JsString password)]))) w].
Proof.
  intros Hrej.
  set (c := Signup (JsObject [("name", JsString name); ("email", JsString email);
                              ("password", JsString password)])) in *.
  assert (Hrun : AuthContext.signup server st name email password w
                 = (Rejected e, snd (invoke server c w))).
  { unfold AuthContext.signup, authAPI.signup.
    change (signup server (JsObject [("name", JsString name); ("email", JsString email);
                                     ("password", JsString password)]))
      with (invoke server c).
    unfold await at 1. unfold then_ at 1.
    destruct (invoke server c w) as [[r|e'] w']; simpl in Hrej; [discriminate|].
    injection Hrej as ->. reflexivity. }
  rewrite Hrun. cbn [fst snd]. split; [reflexivity|]. apply invoke_sends_once.
Qed.

(** X13. A successful signup is three requests in order (signup, login,
    profile fetch, the last one with the new token as bearer); it returns
    the body of the signup answer, while the user of the provider becomes
    the fetched profile. *)
Theorem signup_then_login
    (st : AuthState) (name email password : string) (w : World)
    (s0 s1 s2 : Z) (body0 body1 profile : JsValue) (tok : string) :
  server (outgoing (wire_config
            (Signup (JsObject [("name", JsString name); ("email", JsString email);
                               ("password", JsString password)]))) w)
  = Some (s0, body0) →
  validateStatus s0 = true →
  server (outgoing (wire_config (Login (credentials_of email password))) w)
  = Some (s1, body1) →
  validateStatus s1 = true →
  js_opt_get body1 "access_token" = JsString tok →
  tok ≠ "" →
  server (set_header "Authorization" ("Bearer " +:+ tok) (wire_config GetCurrentUser))
  = Some (s2, profile) →
  validateStatus s2 = true →
  ∃ w',
    AuthContext.signup server st name email password w
    = (Fulfilled (body0, mkAuth profile (loading st)), w')
    ∧ localStorage w' = <["token" := tok]> (localStorage w)
    ∧ sent_requests (trace w')
      = sent_requests (trace w)
        ++ [outgoing (wire_config
                        (Signup (JsObject [("name", JsString name); ("email", JsString email);
                                           ("password", JsString password)]))) w;
            outgoing (wire_config (Login (credentials_of email password))) w;
            set_header "Authorization" ("Bearer " +:+ tok) (wire_config GetCurrentUser)].
Proof.
  intros Hsrv0 Hval0 Hsrv1 Hval1 Htok Hne Hsrv2 Hval2.
  set (c := Signup (JsObject [("name", JsString name); ("email", JsString email);
                              ("password", JsString password)])) in *.
  unfold AuthContext.signup, authAPI.signup.
  change (signup server (JsObject [("name", JsString name); ("email", JsString email);
                                   ("password", JsString password)]))
    with (invoke server c).
  unfold await at 1. unfold then_ at 1.
  rewrite (invoke_success c w s0 body0 Hsrv0 Hval0). simpl is_deleteIssue. cbv iota.
  set (w1 := log (EvSend (outgoing (wire_config c) w)) w).
  assert (Hsame : ∀ cfg, outgoing cfg w1 = outgoing cfg w).
  { intros cfg. apply outgoing_same_store. reflexivity. }
  destruct (login_run_success st email password w1 s1 s2 body1 profile tok)
    as (w' & Hrun & Hstore & Hsent); try assumption.
  { rewrite Hsame. exact Hsrv1. }
  unfold await at 1. unfold then_ at 1. rewrite Hrun. unfold resolve. simpl snd.
  exists w'. split; [reflexivity|]. split; [exact Hstore|].
  rewrite Hsent, Hsame. subst w1. simpl. unfold sent_requests at 1.
  rewrite flat_map_app. simpl. rewrite <- app_assoc. reflexivity.
Qed.

(** X14. On mount with a non-empty token whose profile fetch succeeds,
    the fetch is transmitted with that token as bearer, the fetched
    profile becomes the user, loading ends, and the session store is left
    as it was. *)
Theorem initAuth_restores_user
    (st : AuthState) (w : World) (t : string) (status : Z) (profile : JsValue) :
  localStorage w !! "token" = Some t →
  t ≠ "" →
  server (set_header "Authorization" ("Bearer " +:+ t) (wire_config GetCurrentUser))
  = Some (status, profile) →
  validateStatus status = true →
  initAuth server st w
  = (Fulfilled (mkAuth profile false),
     log (EvSend (set_header "Authorization" ("Bearer " +:+ t)
                             (wire_config GetCurrentUser))) w).
Proof.
  intros Hget Hne Hsrv Hval.
  unfold initAuth, try_catch, await, then_, getItem.
  rewrite Hget, (token_truthy_Some t Hne).
  fold (then_ (getCurrentUser server) (fun userData => resolve (setUser userData st)) reject).
  pose proof (outgoing_with_token (wire_config GetCurrentUser) w t Hget Hne) as Hout.
  pose proof (invoke_success GetCurrentUser w status profile) as Hrun.
  rewrite Hout in Hrun. specialize (Hrun Hsrv Hval). simpl in Hrun.
  unfold then_. rewrite Hrun. reflexivity.
Qed.


(** X16. On mount with a non-empty token that the server answers with
    401, the effects are, in order: the fetch with the token as bearer,
    the interceptor's removal of token and user, the redirect to the login
    location unless the page is already there, then the provider's own
    removal of token and user; the user is not set and loading ends. *)
Theorem initAuth_unauthorized_trace
    (st : AuthState) (w : World) (t : string) (body : JsValue) :
  localStorage w !! "token" = Some t →
  t ≠ "" →
  server (set_header "Authorization" ("Bearer " +:+ t) (wire_config GetCurrentUser))
  = Some (401%Z, body) →
  ∃ w',
    initAuth server st w = (Fulfilled (mkAuth (user st) false), w')
    ∧ trace w'
      = trace w
        ++ [EvSend (set_header "Authorization" ("Bearer " +:+ t)
                               (wire_config GetCurrentUser));
            EvRemoveItem "token"; EvRemoveItem "user"]
        ++ (if String.eqb (pathname w) "/login" then [] else [EvAssignHref "/login"])
        ++ [EvRemoveItem "token"; EvRemoveItem "user"].
Proof.
  intros Hget Hne Hsrv.
  pose proof (outgoing_with_token (wire_config GetCurrentUser) w t Hget Hne) as Hout.
  unfold initAuth, try_catch, await, then_, getItem.
  rewrite Hget, (token_truthy_Some t Hne).
  fold (then_ (getCurrentUser server) (fun userData => resolve (setUser userData st)) reject).
  unfold then_.
  change (getCurrentUser server) with (invoke server GetCurrentUser).
  rewrite invoke_unfold, api_request_unfold. cbv zeta. rewrite Hout, Hsrv.
  change (validateStatus 401) with false. cbv iota.
  rewrite response_onRejected_401 by reflexivity.
  unfold removeItem, resolve. simpl.
  eexists. split; [reflexivity|]. simpl.
  destruct (String.eqb (pathname w) "/login"); simpl;
    rewrite <- !app_assoc; reflexivity.
Qed.

End ProviderProperties.

(** * The forms *)

Section FormProperties.

Variable server : RequestConfig -> option (Z * JsValue).

(** X17. Submitting the login form never rejects: whatever the login
    does, the handler ends by clearing its loading flag, its effects on
    the world are those of the login, and it navigates to the projects
    page exactly when the login was fulfilled. *)
Theorem login_submit_always_settles
    (auth : AuthState) (email password : string) (w : World) :
  ∃ auth' effects,
    LoginForm.handleSubmit server auth email password w
    = (Fulfilled (auth', effects),
       snd (AuthContext.login server auth email password w))
    ∧ last effects = Some (loading_is false)
    ∧ (In (Navigate "/projects") effects
       ↔ ∃ r, fst (AuthContext.login server auth email password w) = Fulfilled r).
Proof.
  unfold LoginForm.handleSubmit, then_.
  destruct (AuthContext.login server auth email password w) as [[logged|err] w'].
  - eexists _, _. split; [reflexivity|]. split; [reflexivity|].
    split; [eauto|]. intros _. simpl. auto.
  - eexists _, _. split; [reflexivity|]. split; [reflexivity|].
    split.
    + simpl. unfold loading_is. intros [H|[H|[H|[H|[]]]]]; discriminate H.
    + intros [r Hr]. discriminate Hr.
Qed.

(** X18. Wrong credentials on the login page: when the login request is
    answered 401 while the location is the login path, the page shows one
    error toast with the detail of the answer (or the fixed login text
    when the detail is falsy), clears loading, and no redirect is
    requested. *)
Theorem login_submit_wrong_credentials
    (auth : AuthState) (email password : string) (w : World) (body : JsValue) :
  pathname w = "/login" →
  server (outgoing (wire_config (Login (credentials_of email password))) w)
  = Some (401%Z, body) →
  ∃ w',
    LoginForm.handleSubmit server auth email password w
    = (Fulfilled
         (auth,
          [SetState "error" (JsString ""); loading_is true;
           Toast (js_or (js_opt_get body "detail")
                        (JsString "Login failed. Please try again.")) "error";
           loading_is false]), w')
    ∧ trace w'
      = trace w
        ++ [EvSend (outgoing (wire_config (Login (credentials_of email password))) w);
            EvRemoveItem "token"; EvRemoveItem "user"].
Proof.
  intros Hpath Hsrv.
  unfold LoginForm.handleSubmit, then_ at 1.
  unfold AuthContext.login, authAPI.login.
  change (login server (JsObject [("email", JsString email); ("password", JsString password)]))
    with (invoke server (Login (credentials_of email password))).
  unfold await at 1. unfold then_ at 1.
  rewrite invoke_unfold, api_request_unfold. cbv zeta. rewrite Hsrv.
  change (validateStatus 401) with false. cbv iota.
  rewrite response_onRejected_401 by reflexivity.
  simpl pathname. rewrite Hpath. simpl.
  eexists. split; [reflexivity|]. simpl. rewrite <- app_assoc. reflexivity.
Qed.

(** X19. A password shorter than eight code units never reaches the
    server: the signup handler shows the fixed length message in the
    banner and in a toast, clears loading, and leaves the world and the
    provider as they were. *)
Theorem signup_submit_short_password
    (js_length : string → nat)
    (auth : AuthState) (name email password : string) (w : World) :
  (js_length password < 8)%nat →
  SignupForm.handleSubmit server js_length auth name email password w
  = (Fulfilled
       (auth,
        [SetState "error" (JsString ""); loading_is true;
         SetState "error" (JsString "Password must be at least 8 characters long");
         Toast (JsString "Password must be at least 8 characters long") "error";
         loading_is false]), w).
Proof.
  intros Hshort. unfold SignupForm.handleSubmit.
  apply Nat.ltb_lt in Hshort. rewrite Hshort. reflexivity.
Qed.

End FormProperties.

(** * The issue list *)

Lemma assoc_get_obj_set (k k' : string) (v : JsValue) (fields : list (string * JsValue)) :
  assoc_get k (obj_set k' v fields)
  = if String.eqb k k' then v else assoc_get k fields.
Proof.
  induction fields as [|[k0 v0] rest IH]; simpl; [reflexivity|].
  destruct (String.eqb_spec k' k0) as [->|Hne]; simpl.
  - destruct (String.eqb k k0); reflexivity.
  - rewrite IH.
    destruct (String.eqb_spec k k0) as [->|Hk]; [|reflexivity].
    destruct (String.eqb_spec k0 k'); [congruence | reflexivity].
Qed.

Lemma assoc_get_absent (k : string) (fields : list (string * JsValue)) :
  existsb (String.eqb k) (obj_keys fields) = false →
  assoc_get k fields = JsUndefined.
Proof.
  induction fields as [|[k0 v0] rest IH]; simpl; [reflexivity|].
  destruct (String.eqb k k0); simpl; [discriminate | exact IH].
Qed.

Lemma cleanParams_fold (k : string) (filters acc : list (string * JsValue))
    (keys : list string) :
  assoc_get k
    (fold_left
       (fun cleanParams key =>
          if negb (js_strict_eq (assoc_get key filters) (JsString ""))
             && negb (js_strict_eq (assoc_get key filters) JsNull)
          then obj_set key (assoc_get key filters) cleanParams
          else cleanParams) keys acc)
  = if existsb (String.eqb k) keys && kept_in_query (assoc_get k filters)
    then assoc_get k filters
    else assoc_get k acc.
Proof.
  revert acc. induction keys as [|key keys IH]; intros acc; simpl; [reflexivity|].
  rewrite IH. fold (kept_in_query (assoc_get key filters)).
  destruct (String.eqb_spec k key) as [->|Hne]; simpl.
  - destruct (kept_in_query (assoc_get key filters)) eqn:Hkept.
    + rewrite andb_true_r.
      destruct (existsb (String.eqb key) keys); [reflexivity|].
      rewrite assoc_get_obj_set, String.eqb_refl. reflexivity.
    + rewrite andb_false_r. reflexivity.
  - destruct (existsb (String.eqb k) keys && kept_in_query (assoc_get k filters));
      [reflexivity|].
    destruct (kept_in_query (assoc_get key filters)); [|reflexivity].
    rewrite assoc_get_obj_set.
    destruct (String.eqb_spec k key); [contradiction | reflexivity].
Qed.

Lemma cleanParams_lookup (k : string) (filters : list (string * JsValue)) :
  assoc_get k (IssuesListFlow.cleanParams filters)
  = if kept_in_query (assoc_get k filters) then assoc_get k filters else JsUndefined.
Proof.
  unfold IssuesListFlow.cleanParams. rewrite cleanParams_fold. simpl.
  destruct (existsb (String.eqb k) (obj_keys filters)) eqn:Hin; simpl; [reflexivity|].
  rewrite (assoc_get_absent k filters Hin). reflexivity.
Qed.

(** X21. The query object built by fetchIssues holds, for every key,
    the value of the filter when that value is neither the empty string
    nor null, and nothing otherwise: empty filters never reach the
    server, and no other filter is lost or altered. *)
Theorem cleanParams_keeps_nonempty_filters
    (filters : list (string * JsValue)) (k : string) :
  assoc_get k (IssuesListFlow.cleanParams filters)
  = if kept_in_query (assoc_get k filters) then assoc_get k filters else JsUndefined.
Proof.
  exact (cleanParams_lookup k filters).
Qed.

(** X23. Changing one filter and rebuilding the query: the changed field
    is in the query with its new value, or absent when the new value is
    the empty string or null (clearing a filter removes it), and every
    other field of the query is as before the change. *)
Theorem filter_change_reaches_query
    (filters : list (string * JsValue)) (field : string) (value : JsValue) :
  assoc_get field
    (IssuesListFlow.cleanParams (IssuesListFlow.handleFilterChange filters field value))
  = (if kept_in_query value then value else JsUndefined)
  ∧ ∀ k, k ≠ field →
      assoc_get k
        (IssuesListFlow.cleanParams (IssuesListFlow.handleFilterChange filters field value))
      = assoc_get k (IssuesListFlow.cleanParams filters).
Proof.
  unfold IssuesListFlow.handleFilterChange. split.
  - rewrite cleanParams_lookup, assoc_get_obj_set, String.eqb_refl. reflexivity.
  - intros k Hne. rewrite !cleanParams_lookup, assoc_get_obj_set.
    destruct (String.eqb_spec k field); [contradiction | reflexivity].
Qed.

(** X26. The body sent to create an issue is the form with its assignee
    normalised: a falsy assignee (the empty string of an untouched form)
    is sent as null, a truthy one as it is, and every other field is the
    form's. *)
Theorem createIssue_body_normalises_assignee
    (newIssue : list (string * JsValue)) :
  ∃ fields,
    IssuesListFlow.createIssue_body newIssue = JsObject fields
    ∧ assoc_get "assignee_id" fields
      = (if js_truthy (assoc_get "assignee_id" newIssue)
         then assoc_get "assignee_id" newIssue else JsNull)
    ∧ ∀ k, k ≠ "assignee_id" → assoc_get k fields = assoc_get k newIssue.
Proof.
  eexists. split; [reflexivity|]. split.
  - rewrite assoc_get_obj_set. reflexivity.
  - intros k Hne. rewrite assoc_get_obj_set.
    destruct (String.eqb_spec k "assignee_id"); [contradiction | reflexivity].
Qed.

Lemma assoc_get_app_absent (k : string) (pre rest : list (string * JsValue)) :
  k ∉ obj_keys pre → assoc_get k (pre ++ rest) = assoc_get k rest.
Proof.
  induction pre as [|[k0 v0] pre IH]; simpl; [reflexivity|].
  intros Hnot. apply not_elem_of_cons in Hnot as [Hne Hnot].
  destruct (String.eqb_spec k k0); [contradiction | apply IH; exact Hnot].
Qed.

Lemma obj_set_absent (k : string) (v : JsValue) (fields : list (string * JsValue)) :
  k ∉ obj_keys fields → obj_set k v fields = fields ++ [(k, v)].
Proof.
  induction fields as [|[k0 v0] rest IH]; simpl; [reflexivity|].
  intros Hnot. apply not_elem_of_cons in Hnot as [Hne Hnot].
  destruct (String.eqb_spec k k0); [contradiction|].
  rewrite IH by exact Hnot. reflexivity.
Qed.

Lemma obj_keys_filter (f : string * JsValue → bool) (k : string)
    (fields : list (string * JsValue)) :
  k ∉ obj_keys fields → k ∉ obj_keys (List.filter f fields).
Proof.
  induction fields as [|[k0 v0] rest IH]; simpl; [auto|].
  intros Hnot. apply not_elem_of_cons in Hnot as [Hne Hnot].
  destruct (f (k0, v0)); simpl.
  - apply not_elem_of_cons. split; [exact Hne | apply IH; exact Hnot].
  - apply IH; exact Hnot.
Qed.

Lemma cleanParams_fold_filter (filters pre rest : list (string * JsValue)) :
  filters = pre ++ rest →
  NoDup (obj_keys filters) →
  fold_left
    (fun cleanParams key =>
       if negb (js_strict_eq (assoc_get key filters) (JsString ""))
          && negb (js_strict_eq (assoc_get key filters) JsNull)
       then obj_set key (assoc_get key filters) cleanParams
       else cleanParams)
    (obj_keys rest)
    (List.filter (fun kv => kept_in_query (snd kv)) pre)
  = List.filter (fun kv => kept_in_query (snd kv)) filters.
Proof.
  revert pre. induction rest as [|[key v] rest IH]; intros pre Heq Hnd.
  - simpl. rewrite Heq, app_nil_r. reflexivity.
  - assert (Hkey : key ∉ obj_keys pre).
    { rewrite Heq in Hnd. unfold obj_keys in Hnd. rewrite map_app in Hnd.
      apply NoDup_app in Hnd as (_ & Hdisj & _).
      intros Hin. apply (Hdisj key Hin). simpl. apply elem_of_cons. auto. }
    assert (Hval : assoc_get key filters = v).
    { rewrite Heq, (assoc_get_app_absent key pre _ Hkey). simpl.
      rewrite String.eqb_refl. reflexivity. }
    simpl. rewrite Hval. fold (kept_in_query v).
    specialize (IH (pre ++ [(key, v)])).
    rewrite <- app_assoc in IH. specialize (IH Heq Hnd).
    rewrite List.filter_app in IH. simpl in IH.
    destruct (kept_in_query v).
    + rewrite obj_set_absent by (apply obj_keys_filter; exact Hkey). exact IH.
    + rewrite app_nil_r in IH. exact IH.
Qed.

(** X22. When the filter object has no repeated key, the query object
    is the filter object with the entries whose value is the empty string
    or null taken out: the entries kept are in their original order and
    carry their original values. *)
Theorem cleanParams_is_filter (filters : list (string * JsValue)) :
  NoDup (obj_keys filters) →
  IssuesListFlow.cleanParams filters
  = List.filter (fun kv => kept_in_query (snd kv)) filters.
Proof.
  intros Hnd. unfold IssuesListFlow.cleanParams.
  exact (cleanParams_fold_filter filters [] filters eq_refl Hnd).
Qed.

Section IssueListProperties.

Variable server : RequestConfig -> option (Z * JsValue).

(** The shape of every run of the loader. *)
Lemma fetchIssues_run
    (projectId : string) (filters : list (string * JsValue)) (w : World) :
  ∃ effects w',
    IssuesListFlow.fetchIssues server projectId filters w = (Fulfilled effects, w')
    ∧ head effects = Some (loading_is true)
    ∧ last effects = Some (loading_is false)
    ∧ sent_requests (trace w')
      = sent_requests (trace w)
        ++ [outgoing (api_defaults GET ("/projects/" +:+ projectId +:+ "/issues")
                                   JsUndefined
                                   (JsObject (IssuesListFlow.cleanParams filters))) w].
Proof.
  pose proof (invoke_sends_once server
                (GetIssues projectId (JsObject (IssuesListFlow.cleanParams filters))) w)
    as Hsent.
  change (invoke server (GetIssues projectId (JsObject (IssuesListFlow.cleanParams filters))))
    with (getIssues server projectId (JsObject (IssuesListFlow.cleanParams filters)))
    in Hsent.
  simpl wire_config in Hsent.
  unfold IssuesListFlow.fetchIssues, then_ at 1, await at 1, then_ at 1.
  destruct (getIssues server projectId (JsObject (IssuesListFlow.cleanParams filters)) w)
    as [[data|err] w1]; simpl snd in Hsent.
  - destruct data; simpl; eexists _, _;
      (split; [reflexivity|]); (split; [reflexivity|]); (split; [reflexivity|]);
      exact Hsent.
  - simpl. eexists _, _.
    split; [reflexivity|]. split; [reflexivity|]. split; [reflexivity|]. exact Hsent.
Qed.

(** X25. When the issues request is answered 2xx with a body that is
    neither null nor undefined, the issues cell receives the issues field
    of that body (undefined if the body has none) and no error is shown. *)
Theorem fetchIssues_shows_issues
    (projectId : string) (filters : list (string * JsValue)) (w : World)
    (status : Z) (body : JsValue) :
  server (outgoing (wire_config
            (GetIssues projectId (JsObject (IssuesListFlow.cleanParams filters)))) w)
  = Some (status, body) →
  validateStatus status = true →
  body ≠ JsNull →
  body ≠ JsUndefined →
  fst (IssuesListFlow.fetchIssues server projectId filters w)
  = Fulfilled [loading_is true; SetState "issues" (js_opt_get body "issues");
               loading_is false].
Proof.
  intros Hsrv Hval Hnull Hundef.
  pose proof (invoke_success server _ w status body Hsrv Hval) as Hrun.
  change (invoke server (GetIssues projectId (JsObject (IssuesListFlow.cleanParams filters))))
    with (getIssues server projectId (JsObject (IssuesListFlow.cleanParams filters)))
    in Hrun.
  simpl is_deleteIssue in Hrun. cbv iota in Hrun.
  unfold IssuesListFlow.fetchIssues, then_ at 1, await at 1, then_ at 1.
  rewrite Hrun.
  destruct body; try contradiction; reflexivity.
Qed.

(** X27. When creating an issue is rejected, the handler shows one error
    toast, with the detail of the failure or else its fixed text, and
    does nothing more: the modal stays, the form keeps its content and no
    reload of the list is transmitted. *)
Theorem handleCreateIssue_failure_keeps_form
    (projectId : string) (newIssue filters : list (string * JsValue))
    (w : World) (e : AxiosError) :
  fst (invoke server
         (CreateIssue projectId (IssuesListFlow.createIssue_body newIssue)) w)
  = Rejected e →
  ∃ w',
    IssuesListFlow.handleCreateIssue server projectId newIssue filters w
    = (Fulfilled [Toast (js_or (error_detail e) (JsString "Failed to create issue"))
                        "error"], w')
    ∧ sent_requests (trace w')
      = sent_requests (trace w)
        ++ [outgoing (wire_config
                        (CreateIssue projectId
                           (IssuesListFlow.createIssue_body newIssue))) w].
Proof.
  intros Hrej.
  pose proof (invoke_sends_once server
                (CreateIssue projectId (IssuesListFlow.createIssue_body newIssue)) w)
    as Hsent.
  change (invoke server (CreateIssue projectId (IssuesListFlow.createIssue_body newIssue)))
    with (createIssue server projectId (IssuesListFlow.createIssue_body newIssue))
    in Hsent, Hrej.
  unfold IssuesListFlow.handleCreateIssue, then_ at 1.
  destruct (createIssue server projectId (IssuesListFlow.createIssue_body newIssue) w)
    as [[r|e'] w1]; simpl in Hrej; [discriminate|].
  injection Hrej as ->.
  eexists. split; [reflexivity|]. exact Hsent.
Qed.

(** X24. Loading the issues never rejects and transmits exactly one
    request, the GET of the project's issues whose query object is the
    cleaned filters; the handler's first effect sets loading and its last
    clears it. *)
Theorem fetchIssues_sends_clean_query
    (projectId : string) (filters : list (string * JsValue)) (w : World) :
  ∃ effects w',
    IssuesListFlow.fetchIssues server projectId filters w = (Fulfilled effects, w')
    ∧ head effects = Some (loading_is true)
    ∧ last effects = Some (loading_is false)
    ∧ sent_requests (trace w')
      = sent_requests (trace w)
        ++ [outgoing (api_defaults GET ("/projects/" +:+ projectId +:+ "/issues")
                                   JsUndefined
                                   (JsObject (IssuesListFlow.cleanParams filters))) w].
Proof.
  exact (fetchIssues_run projectId filters w).
Qed.

(** X28. When creating an issue succeeds, the handler shows the success
    toast, closes the modal, resets the form, and starts a reload of the
    list: two requests are transmitted in order, the POST with the
    normalised body and then the GET with the cleaned filters. *)
Theorem handleCreateIssue_success_reloads
    (projectId : string) (newIssue filters : list (string * JsValue))
    (w : World) (status : Z) (answer : JsValue) :
  server (outgoing (wire_config
            (CreateIssue projectId (IssuesListFlow.createIssue_body newIssue))) w)
  = Some (status, answer) →
  validateStatus status = true →
  ∃ reload w',
    IssuesListFlow.handleCreateIssue server projectId newIssue filters w
    = (Fulfilled ([Toast (JsString "Issue created successfully!") "success";
                   SetState "showModal" (JsBool false);
                   SetState "newIssue" (JsObject IssuesListFlow.newIssue_reset)]
                  ++ reload), w')
    ∧ head reload = Some (loading_is true)
    ∧ sent_requests (trace w')
      = sent_requests (trace w)
        ++ [outgoing (wire_config
                        (CreateIssue projectId
                           (IssuesListFlow.createIssue_body newIssue))) w;
            outgoing (wire_config
                        (GetIssues projectId
                           (JsObject (IssuesListFlow.cleanParams filters)))) w].
Proof.
  intros Hsrv Hval.
  pose proof (invoke_success server _ w status answer Hsrv Hval) as Hrun.
  change (invoke server (CreateIssue projectId (IssuesListFlow.createIssue_body newIssue)))
    with (createIssue server projectId (IssuesListFlow.createIssue_body newIssue))
    in Hrun.
  simpl is_deleteIssue in Hrun. cbv iota in Hrun.
  unfold IssuesListFlow.handleCreateIssue, then_ at 1. rewrite Hrun.
  set (w1 := log _ w).
  destruct (fetchIssues_run projectId filters w1) as (reload & w' & Hfetch & Hhead & _ & Hsent).
  unfold await, then_. rewrite Hfetch. unfold resolve.
  exists reload, w'. split; [reflexivity|]. split; [exact Hhead|].
  rewrite Hsent. subst w1.
  rewrite (outgoing_same_store _ (log _ w) w eq_refl).
  simpl. unfold sent_requests at 1. rewrite flat_map_app. simpl.
  rewrite <- app_assoc. reflexivity.
Qed.

End IssueListProperties.

(** * Who may add members *)

Lemma is_maintainer_entry_well_formed (user m : JsValue) :
  user ≠ JsNull → user ≠ JsUndefined →
  ProjectDetailView.well_formed_member m →
  ProjectDetailView.is_maintainer_entry user m
  = Some (ProjectDetailView.member_matches user m)
  ∧ js_truthy m = true.
Proof.
  intros Hnull Hundef (fields & ufields & -> & Huser).
  split; [|reflexivity].
  unfold ProjectDetailView.is_maintainer_entry, ProjectDetailView.member_matches.
  simpl. rewrite Huser. simpl.
  assert (Hid : ProjectDetailView.member user "id" = Some (js_opt_get user "id")).
  { destruct user; try contradiction; reflexivity. }
  rewrite Hid. simpl.
  destruct (js_strict_eq (assoc_get "id" ufields) (js_opt_get user "id")); reflexivity.
Qed.

(** X29. For a project whose members are well-formed entries and a
    signed-in user, computing isMaintainer does not throw, and its result
    is truthy exactly when some member entry has the user's id and the
    role maintainer. *)
Theorem isMaintainer_iff_maintainer_entry
    (project user : JsValue) (items : list JsValue) :
  js_opt_get project "members" = JsArray items →
  user ≠ JsNull →
  user ≠ JsUndefined →
  Forall ProjectDetailView.well_formed_member items →
  ∃ r,
    ProjectDetailView.isMaintainer project user = Some r
    ∧ (js_truthy r = true
       ↔ Exists (fun m => ProjectDetailView.member_matches user m = true) items).
Proof.
  intros Hmem Hnull Hundef Hwf.
  unfold ProjectDetailView.isMaintainer. rewrite Hmem. clear Hmem.
  induction Hwf as [|m items Hm Hrest IH].
  - exists JsUndefined. split; [reflexivity|]. split.
    + discriminate.
    + intros Hex. inversion Hex.
  - destruct (is_maintainer_entry_well_formed user m Hnull Hundef Hm) as [Hentry Htruthy].
    simpl. rewrite Hentry.
    destruct (ProjectDetailView.member_matches user m) eqn:Hmatch.
    + exists m. split; [reflexivity|]. split; [|auto].
      intros _. apply Exists_cons_hd. exact Hmatch.
    + destruct IH as (r & Hr & Hiff). exists r. split; [exact Hr|].
      rewrite Hiff. split.
      * intros Hex. apply Exists_cons_tl. exact Hex.
      * intros Hex. inversion Hex as [? ? Hhd|? ? Htl]; subst; [congruence | exact Htl].
Qed.

(** * Signing up with a long enough password *)

Section SignupProperties.

Variable server : RequestConfig -> option (Z * JsValue).

Lemma login_sent_extends (st : AuthState) (email password : string) (w : World) :
  ∃ rest,
    sent_requests (trace (snd (AuthContext.login server st email password w)))
    = sent_requests (trace w) ++ rest.
Proof.
  pose proof (invoke_sends_once server (Login (credentials_of email password)) w) as Hsent1.
  unfold AuthContext.login, authAPI.login, authAPI.getCurrentUser.
  change (login server (JsObject [("email", JsString email); ("password", JsString password)]))
    with (invoke server (Login (credentials_of email password))).
  change (getCurrentUser server) with (invoke server GetCurrentUser).
  unfold await at 1. unfold then_ at 1.
  destruct (invoke server (Login (credentials_of email password)) w) as [[data|e] w1];
    simpl snd in Hsent1; [|eexists; exact Hsent1].
  assert (Hlater : ∀ v,
             ∃ rest,
               sent_requests
                 (trace (snd ((setItem "token" v;;;
                               userData <- invoke server GetCurrentUser;;
                               resolve (userData, setUser userData st)) w1)))
               = sent_requests (trace w) ++ rest).
  { intros v. unfold await at 1. unfold then_, setItem.
    set (w2 := mkWorld _ _ _).
    pose proof (invoke_sends_once server GetCurrentUser w2) as Hsent2.
    change (trace w2) with (trace w1) in Hsent2. rewrite Hsent1, <- app_assoc in Hsent2.
    unfold await, then_.
    destruct (invoke server GetCurrentUser w2) as [[userData|e] w3];
      eexists; exact Hsent2. }
  unfold await at 1. unfold then_ at 1.
  destruct data;
    first [ (eexists; exact Hsent1)
          | match goal with
            | |- context [js_get ?d _] => exact (Hlater (js_opt_get d "access_token"))
            end ].
Qed.

Lemma signup_sent_first (st : AuthState) (name email password : string) (w : World) :
  ∃ rest,
    sent_requests (trace (snd (AuthContext.signup server st name email password w)))
    = sent_requests (trace w)
      ++ outgoing (wire_config
                     (Signup (JsObject [("name", JsString name); ("email", JsString email);
                                        ("password", JsString password)]))) w
         :: rest.
Proof.
  set (c := Signup (JsObject [("name", JsString name); ("email", JsString email);
                              ("password", JsString password)])).
  pose proof (invoke_sends_once server c w) as Hsent0.
  unfold AuthContext.signup, authAPI.signup.
  change (signup server (JsObject [("name", JsString name); ("email", JsString email);
                                   ("password", JsString password)]))
    with (invoke server c).
  unfold await at 1. unfold then_ at 1.
  destruct (invoke server c w) as [[userData|e] w1]; simpl snd in Hsent0.
  - destruct (login_sent_extends st email password w1) as [rest Hrest].
    unfold await, then_.
    destruct (AuthContext.login server st email password w1) as [[logged|e] w2];
      simpl snd in Hrest; exists rest; simpl snd;
      rewrite Hrest, Hsent0, <- app_assoc; reflexivity.
  - exists []. exact Hsent0.
Qed.

(** X20. With a password of eight code units or more the signup form
    does contact the server: the handler never rejects, ends by clearing
    loading, and the first request it transmits is the signup request
    carrying the name, the email and the password typed. *)
Theorem signup_submit_contacts_server
    (js_length : string → nat)
    (auth : AuthState) (name email password : string) (w : World) :
  (8 ≤ js_length password)%nat →
  ∃ auth' effects w' rest,
    SignupForm.handleSubmit server js_length auth name email password w
    = (Fulfilled (auth', effects), w')
    ∧ last effects = Some (loading_is false)
    ∧ sent_requests (trace w')
      = sent_requests (trace w)
        ++ outgoing (wire_config
                       (Signup (JsObject [("name", JsString name); ("email", JsString email);
                                          ("password", JsString password)]))) w
           :: rest.
Proof.
  intros Hlong.
  destruct (signup_sent_first auth name email password w) as [rest Hrest].
  unfold SignupForm.handleSubmit.
  apply Nat.ltb_ge in Hlong. rewrite Hlong.
  unfold then_.
  destruct (AuthContext.signup server auth name email password w) as [[signed|err] w'];
    simpl snd in Hrest; eexists _, _, _, rest;
    (split; [reflexivity|]); (split; [reflexivity|]); exact Hrest.
Qed.

End SignupProperties.

(** * More worked scenarios *)

(** A successful read while signed in leaves the session alone. *)
Lemma session_untouched_unless_401_witness :
  (∀ body, server_always 200 (JsArray [])
             (outgoing (wire_config GetProjects) world_signed_in)
           ≠ Some (401%Z, body))
  ∧ snd (api_request (server_always 200 (JsArray []))
                     (wire_config GetProjects) world_signed_in)
    = log (EvSend (outgoing (wire_config GetProjects) world_signed_in)) world_signed_in.
Proof.
  split; [intros body; discriminate|].
  apply (session_untouched_unless_401 (server_always 200 (JsArray []))
           (wire_config GetProjects) world_signed_in).
  intros body; discriminate.
Defined.

(** After a 401 the next request carries no token. *)
Lemma unauthorized_ends_session_witness :
  server_always 401 body_unauthorized
    (outgoing (wire_config GetProjects) world_signed_in)
  = Some (401%Z, body_unauthorized)
  ∧ outgoing (wire_config (GetProject "5"))
      (snd (api_request (server_always 401 body_unauthorized)
                        (wire_config GetProjects) world_signed_in))
    = wire_config (GetProject "5").
Proof.
  split; [reflexivity|].
  exact (unauthorized_ends_session (server_always 401 body_unauthorized)
           (wire_config GetProjects) (wire_config (GetProject "5"))
           world_signed_in body_unauthorized eq_refl).
Defined.

(** Ann logs in from the login page. *)
Lemma login_stores_and_uses_token_witness :
  (server_demo (outgoing (wire_config
                  (Login (credentials_of "ann@example.com" "hunter22"))) world_signed_out)
   = Some (200%Z, token_body)
   ∧ validateStatus 200 = true
   ∧ js_opt_get token_body "access_token" = JsString "abc"
   ∧ "abc" ≠ ""
   ∧ server_demo (set_header "Authorization" ("Bearer " +:+ "abc")
                             (wire_config GetCurrentUser))
     = Some (200%Z, profile_ann)
   ∧ validateStatus 200 = true)
  ∧ ∃ w',
      AuthContext.login server_demo auth_initial "ann@example.com" "hunter22"
                        world_signed_out
      = (Fulfilled (profile_ann, mkAuth profile_ann (loading auth_initial)), w')
      ∧ localStorage w' = <["token" := "abc"]> (localStorage world_signed_out)
      ∧ sent_requests (trace w')
        = sent_requests (trace world_signed_out)
          ++ [outgoing (wire_config
                          (Login (credentials_of "ann@example.com" "hunter22")))
                       world_signed_out;
              set_header "Authorization" ("Bearer " +:+ "abc")
                         (wire_config GetCurrentUser)].
Proof.
  split.
  - repeat split; try reflexivity. discriminate.
  - apply (login_stores_and_uses_token server_demo auth_initial
             "ann@example.com" "hunter22" world_signed_out
             200 200 token_body profile_ann "abc");
      try reflexivity. discriminate.
Defined.

(** Wrong credentials: nothing stored, no profile fetch. *)
Lemma login_rejected_stores_nothing_witness :
  fst (invoke (server_always 401 body_unauthorized)
              (Login (credentials_of "ann@example.com" "wrong")) world_signed_out)
  = Rejected (error_of 401 body_unauthorized
                (wire_config (Login (credentials_of "ann@example.com" "wrong"))))
  ∧ fst (AuthContext.login (server_always 401 body_unauthorized) auth_initial
                           "ann@example.com" "wrong" world_signed_out)
    = Rejected (error_of 401 body_unauthorized
                  (wire_config (Login (credentials_of "ann@example.com" "wrong")))).
Proof.
  split; [reflexivity|].
  exact (proj1 (login_rejected_stores_nothing (server_always 401 body_unauthorized)
                  auth_initial "ann@example.com" "wrong" world_signed_out
                  (error_of 401 body_unauthorized
                     (wire_config (Login (credentials_of "ann@example.com" "wrong"))))
                  eq_refl)).
Defined.

(** The profile endpoint is broken: the token stays behind. *)
Lemma login_keeps_token_when_profile_fails_witness :
  (server_profile_down
     (outgoing (wire_config (Login (credentials_of "ann@example.com" "hunter22")))
               world_signed_out)
   = Some (200%Z, token_body)
   ∧ validateStatus 200 = true
   ∧ js_opt_get token_body "access_token" = JsString "abc"
   ∧ "abc" ≠ ""
   ∧ server_profile_down
       (set_header "Authorization" ("Bearer " +:+ "abc") (wire_config GetCurrentUser))
     = Some (500%Z, body_unavailable)
   ∧ validateStatus 500 = false
   ∧ 500%Z ≠ 401%Z)
  ∧ ∃ w',
      AuthContext.login server_profile_down auth_initial "ann@example.com" "hunter22"
                        world_signed_out
      = (Rejected (error_of 500 body_unavailable
                     (set_header "Authorization" ("Bearer " +:+ "abc")
                                 (wire_config GetCurrentUser))), w')
      ∧ localStorage w' = <["token" := "abc"]> (localStorage world_signed_out).
Proof.
  split.
  - repeat split; try reflexivity; discriminate.
  - apply (login_keeps_token_when_profile_fails server_profile_down auth_initial
             "ann@example.com" "hunter22" world_signed_out
             200 500 token_body body_unavailable "abc");
      try reflexivity; discriminate.
Defined.

(** A login answer without a token. *)
Lemma login_without_token_sends_undefined_witness :
  (server_no_token
     (outgoing (wire_config (Login (credentials_of "ann@example.com" "hunter22")))
               world_signed_out)
   = Some (200%Z, JsObject [("token_type", JsString "bearer")])
   ∧ validateStatus 200 = true
   ∧ assoc_get "access_token" [("token_type", JsString "bearer")] = JsUndefined)
  ∧ sent_requests
      (trace (snd (AuthContext.login server_no_token auth_initial
                     "ann@example.com" "hunter22" world_signed_out)))
    = sent_requests (trace world_signed_out)
      ++ [outgoing (wire_config (Login (credentials_of "ann@example.com" "hunter22")))
                   world_signed_out;
          set_header "Authorization" "Bearer undefined" (wire_config GetCurrentUser)].
Proof.
  split.
  - repeat split; reflexivity.
  - apply (login_without_token_sends_undefined server_no_token auth_initial
             "ann@example.com" "hunter22" world_signed_out
             200 [("token_type", JsString "bearer")]); reflexivity.
Defined.

(** The email is already taken: signup stops at its first request. *)
Lemma signup_rejected_skips_login_witness :
  fst (invoke (server_always 400 (detail_body "Email already registered"))
              (Signup (JsObject [("name", JsString "Ann");
                                 ("email", JsString "ann@example.com");
                                 ("password", JsString "hunter22")]))
              world_signed_out)
  = Rejected (error_of 400 (detail_body "Email already registered")
                (wire_config (Signup (signup_data "Ann" "ann@example.com" "hunter22"))))
  ∧ fst (AuthContext.signup (server_always 400 (detail_body "Email already registered"))
                            auth_initial "Ann" "ann@example.com" "hunter22"
                            world_signed_out)
    = Rejected (error_of 400 (detail_body "Email already registered")
                  (wire_config (Signup (signup_data "Ann" "ann@example.com" "hunter22")))).
Proof.
  split; [reflexivity|].
  exact (proj1 (signup_rejected_skips_login
                  (server_always 400 (detail_body "Email already registered"))
                  auth_initial "Ann" "ann@example.com" "hunter22" world_signed_out
                  (error_of 400 (detail_body "Email already registered")
                     (wire_config (Signup (signup_data "Ann" "ann@example.com" "hunter22"))))
                  eq_refl)).
Defined.

(** Ann signs up and is logged in. *)
Lemma signup_then_login_witness :
  (server_demo (outgoing (wire_config
                  (Signup (JsObject [("name", JsString "Ann");
                                     ("email", JsString "ann@example.com");
                                     ("password", JsString "hunter22")])))
                  world_signed_out)
   = Some (201%Z, profile_ann)
   ∧ validateStatus 201 = true
   ∧ server_demo (outgoing (wire_config
                    (Login (credentials_of "ann@example.com" "hunter22")))
                    world_signed_out)
     = Some (200%Z, token_body)
   ∧ validateStatus 200 = true
   ∧ js_opt_get token_body "access_token" = JsString "abc"
   ∧ "abc" ≠ ""
   ∧ server_demo (set_header "Authorization" ("Bearer " +:+ "abc")
                             (wire_config GetCurrentUser))
     = Some (200%Z, profile_ann)
   ∧ validateStatus 200 = true)
  ∧ ∃ w',
      AuthContext.signup server_demo auth_initial "Ann" "ann@example.com" "hunter22"
                         world_signed_out
      = (Fulfilled (profile_ann, mkAuth profile_ann (loading auth_initial)), w')
      ∧ localStorage w' = <["token" := "abc"]> (localStorage world_signed_out)
      ∧ sent_requests (trace w')
        = sent_requests (trace world_signed_out)
          ++ [outgoing (wire_config
                          (Signup (JsObject [("name", JsString "Ann");
                                             ("email", JsString "ann@example.com");
                                             ("password", JsString "hunter22")])))
                       world_signed_out;
              outgoing (wire_config
                          (Login (credentials_of "ann@example.com" "hunter22")))
                       world_signed_out;
              set_header "Authorization" ("Bearer " +:+ "abc")
                         (wire_config GetCurrentUser)].
Proof.
  split.
  - repeat split; try reflexivity. discriminate.
  - apply (signup_then_login server_demo auth_initial "Ann" "ann@example.com" "hunter22"
             world_signed_out 201 200 200 profile_ann token_body profile_ann "abc");
      try reflexivity. discriminate.
Defined.

(** Reload while signed in: the profile comes back. *)
Lemma initAuth_restores_user_witness :
  (localStorage world_signed_in !! "token" = Some "abc"
   ∧ "abc" ≠ ""
   ∧ server_demo (set_header "Authorization" ("Bearer " +:+ "abc")
                             (wire_config GetCurrentUser))
     = Some (200%Z, profile_ann)
   ∧ validateStatus 200 = true)
  ∧ initAuth server_demo auth_initial world_signed_in
    = (Fulfilled (mkAuth profile_ann false),
       log (EvSend (set_header "Authorization" ("Bearer " +:+ "abc")
                               (wire_config GetCurrentUser))) world_signed_in).
Proof.
  split.
  - repeat split; try reflexivity. discriminate.
  - apply (initAuth_restores_user server_demo auth_initial world_signed_in "abc"
             200 profile_ann); try reflexivity. discriminate.
Defined.

(** Reload with an expired token on the projects page. *)
Lemma initAuth_unauthorized_trace_witness :
  (localStorage world_signed_in !! "token" = Some "abc"
   ∧ "abc" ≠ ""
   ∧ server_always 401 body_unauthorized
       (set_header "Authorization" ("Bearer " +:+ "abc") (wire_config GetCurrentUser))
     = Some (401%Z, body_unauthorized))
  ∧ ∃ w',
      initAuth (server_always 401 body_unauthorized) auth_initial world_signed_in
      = (Fulfilled (mkAuth (user auth_initial) false), w')
      ∧ trace w'
        = trace world_signed_in
          ++ [EvSend (set_header "Authorization" ("Bearer " +:+ "abc")
                                 (wire_config GetCurrentUser));
              EvRemoveItem "token"; EvRemoveItem "user"]
          ++ (if String.eqb (pathname world_signed_in) "/login"
              then [] else [EvAssignHref "/login"])
          ++ [EvRemoveItem "token"; EvRemoveItem "user"].
Proof.
  split.
  - repeat split; try reflexivity. discriminate.
  - apply (initAuth_unauthorized_trace (server_always 401 body_unauthorized)
             auth_initial world_signed_in "abc" body_unauthorized);
      try reflexivity. discriminate.
Defined.

(** Wrong password typed on the login page. *)
Lemma login_submit_wrong_credentials_witness :
  (pathname world_signed_out = "/login"
   ∧ server_always 401 (detail_body "Incorrect email or password")
       (outgoing (wire_config (Login (credentials_of "ann@example.com" "wrong")))
                 world_signed_out)
     = Some (401%Z, detail_body "Incorrect email or password"))
  ∧ fst (LoginForm.handleSubmit
           (server_always 401 (detail_body "Incorrect email or password"))
           auth_initial "ann@example.com" "wrong" world_signed_out)
    = Fulfilled
        (auth_initial,
         [SetState "error" (JsString ""); loading_is true;
          Toast (JsString "Incorrect email or password") "error";
          loading_is false]).
Proof.
  split; [split; reflexivity|].
  destruct (login_submit_wrong_credentials
              (server_always 401 (detail_body "Incorrect email or password"))
              auth_initial "ann@example.com" "wrong" world_signed_out
              (detail_body "Incorrect email or password") eq_refl eq_refl)
    as (w' & Hrun & _).
  rewrite Hrun. reflexivity.
Defined.

(** A five-letter password. *)
Lemma signup_submit_short_password_witness :
  (String.length "short" < 8)%nat
  ∧ SignupForm.handleSubmit server_demo String.length auth_initial
      "Ann" "ann@example.com" "short" world_signed_out
    = (Fulfilled
         (auth_initial,
          [SetState "error" (JsString ""); loading_is true;
           SetState "error" (JsString "Password must be at least 8 characters long");
           Toast (JsString "Password must be at least 8 characters long") "error";
           loading_is false]), world_signed_out).
Proof.
  split; [simpl; lia|].
  apply (signup_submit_short_password server_demo String.length auth_initial
           "Ann" "ann@example.com" "short" world_signed_out).
  simpl; lia.
Defined.

(** An eight-letter password. *)
Lemma signup_submit_contacts_server_witness :
  (8 ≤ String.length "hunter22")%nat
  ∧ ∃ auth' effects w' rest,
      SignupForm.handleSubmit server_demo String.length auth_initial
        "Ann" "ann@example.com" "hunter22" world_signed_out
      = (Fulfilled (auth', effects), w')
      ∧ last effects = Some (loading_is false)
      ∧ sent_requests (trace w')
        = sent_requests (trace world_signed_out)
          ++ outgoing (wire_config
                         (Signup (JsObject [("name", JsString "Ann");
                                            ("email", JsString "ann@example.com");
                                            ("password", JsString "hunter22")])))
                      world_signed_out
             :: rest.
Proof.
  split; [simpl; lia|].
  apply (signup_submit_contacts_server server_demo String.length auth_initial
           "Ann" "ann@example.com" "hunter22" world_signed_out).
  simpl; lia.
Defined.

(** The filters of a fresh page: only sort, page and page size reach the
    query. *)
Lemma cleanParams_is_filter_witness :
  NoDup (obj_keys IssuesListFlow.filters_initial)
  ∧ IssuesListFlow.cleanParams IssuesListFlow.filters_initial
    = [("sort", JsString "created_at"); ("page", JsNumber 1);
       ("page_size", JsNumber 20)].
Proof.
  assert (Hnd : NoDup (obj_keys IssuesListFlow.filters_initial)).
  { apply (bool_decide_unpack _). vm_compute. exact I. }
  split; [exact Hnd|].
  rewrite (cleanParams_is_filter IssuesListFlow.filters_initial Hnd). reflexivity.
Defined.

(** The list of issues arrives. *)
Lemma fetchIssues_shows_issues_witness :
  (server_always 200 issues_body
     (outgoing (wire_config
                  (GetIssues "5" (JsObject (IssuesListFlow.cleanParams
                                              IssuesListFlow.filters_initial))))
               world_signed_in)
   = Some (200%Z, issues_body)
   ∧ validateStatus 200 = true
   ∧ issues_body ≠ JsNull
   ∧ issues_body ≠ JsUndefined)
  ∧ fst (IssuesListFlow.fetchIssues (server_always 200 issues_body) "5"
           IssuesListFlow.filters_initial world_signed_in)
    = Fulfilled [loading_is true;
                 SetState "issues" (js_opt_get issues_body "issues");
                 loading_is false].
Proof.
  split.
  - repeat split; try reflexivity; discriminate.
  - apply (fetchIssues_shows_issues (server_always 200 issues_body) "5"
             IssuesListFlow.filters_initial world_signed_in 200 issues_body);
      try reflexivity; discriminate.
Defined.

(** The backend refuses the new issue. *)
Lemma handleCreateIssue_failure_keeps_form_witness :
  fst (invoke (server_always 422 body_invalid)
              (CreateIssue "5" (IssuesListFlow.createIssue_body newIssue_sample))
              world_signed_in)
  = Rejected (error_of 422 body_invalid
                (outgoing (wire_config
                             (CreateIssue "5"
                                (IssuesListFlow.createIssue_body newIssue_sample)))
                          world_signed_in))
  ∧ fst (IssuesListFlow.handleCreateIssue (server_always 422 body_invalid) "5"
           newIssue_sample IssuesListFlow.filters_initial world_signed_in)
    = Fulfilled [Toast (JsString "Title must not be empty") "error"].
Proof.
  split; [reflexivity|].
  destruct (handleCreateIssue_failure_keeps_form (server_always 422 body_invalid) "5"
              newIssue_sample IssuesListFlow.filters_initial world_signed_in
              (error_of 422 body_invalid
                 (outgoing (wire_config
                              (CreateIssue "5"
                                 (IssuesListFlow.createIssue_body newIssue_sample)))
                           world_signed_in))
              eq_refl)
    as (w' & Hrun & _).
  rewrite Hrun. reflexivity.
Defined.

(** The backend accepts the new issue. *)
Lemma handleCreateIssue_success_reloads_witness :
  (server_always 201 issues_body
     (outgoing (wire_config
                  (CreateIssue "5" (IssuesListFlow.createIssue_body newIssue_sample)))
               world_signed_in)
   = Some (201%Z, issues_body)
   ∧ validateStatus 201 = true)
  ∧ sent_requests
      (trace (snd (IssuesListFlow.handleCreateIssue (server_always 201 issues_body) "5"
                     newIssue_sample IssuesListFlow.filters_initial world_signed_in)))
    = [outgoing (wire_config
                   (CreateIssue "5" (IssuesListFlow.createIssue_body newIssue_sample)))
                world_signed_in;
       outgoing (wire_config
                   (GetIssues "5" (JsObject (IssuesListFlow.cleanParams
                                               IssuesListFlow.filters_initial))))
                world_signed_in].
Proof.
  split; [split; reflexivity|].
  destruct (handleCreateIssue_success_reloads (server_always 201 issues_body) "5"
              newIssue_sample IssuesListFlow.filters_initial world_signed_in
              201 issues_body eq_refl eq_refl)
    as (reload & w' & Hrun & _ & Hsent).
  rewrite Hrun. exact Hsent.
Defined.

(** Ann is a maintainer of the demo project. *)
Lemma isMaintainer_iff_maintainer_entry_witness :
  (js_opt_get project_demo "members" = JsArray [member_bob; member_ann]
   ∧ profile_ann ≠ JsNull
   ∧ profile_ann ≠ JsUndefined
   ∧ Forall ProjectDetailView.well_formed_member [member_bob; member_ann])
  ∧ ∃ r,
      ProjectDetailView.isMaintainer project_demo profile_ann = Some r
      ∧ (js_truthy r = true
         ↔ Exists (fun m => ProjectDetailView.member_matches profile_ann m = true)
                  [member_bob; member_ann]).
Proof.
  assert (Hwf : Forall ProjectDetailView.well_formed_member [member_bob; member_ann]).
  { repeat constructor; eexists _, _; split; reflexivity. }
  split.
  - split; [reflexivity|]. split; [discriminate|]. split; [discriminate | exact Hwf].
  - apply (isMaintainer_iff_maintainer_entry project_demo profile_ann
             [member_bob; member_ann]); [reflexivity | discriminate | discriminate | exact Hwf].
Defined.
